(** * Session layer of the Urho3D-Toolbox scene editor

    A shallow embedding of [Editor/Editor.cpp] and of the parts of
    [Editor/SceneTab.h] it relies on: the scene-tab registry
    ([sceneTabs_], [activeTab_]), the identifier pool ([idPool_]), the
    project file written by [Editor::SaveProject] and read by
    [Editor::LoadProject], and the per-frame pass of [Editor::OnUpdate].

    State is threaded explicitly.  An operation that can dereference a null
    or expired handle returns a [Result]; everything else is total. *)

From stdpp Require Import base gmap sets list strings.
From Stdlib Require Import NArith ZArith Lia Ascii String.

Set Default Proof Using "Type".
Local Open Scope string_scope.
Local Open Scope list_scope.

(** ** Basic data *)

(** [Urho3D::StringHash] wraps an [unsigned]; its default value is 0. *)
Abbreviation StringHash := N (only parsing).

(** Object identity of a heap-allocated [SceneTab]. *)
Abbreviation ptr := nat (only parsing).


(** [StringHash::ToString] prints the value as eight upper-case hexadecimal
    digits ([sprintf("%08X")]). *)
Definition hexDigit (n : N) : ascii :=
  match n with
  | 0 => "0" | 1 => "1" | 2 => "2" | 3 => "3" | 4 => "4" | 5 => "5"
  | 6 => "6" | 7 => "7" | 8 => "8" | 9 => "9" | 10 => "A" | 11 => "B"
  | 12 => "C" | 13 => "D" | 14 => "E" | _ => "F"
  end%N%char.

Fixpoint hexDigits (k : nat) (n : N) (acc : string) : string :=
  match k with
  | O => acc
  | S k' => hexDigits k' (n / 16)%N (String (hexDigit (n mod 16)%N) acc)
  end.

Definition ToString (h : StringHash) : string := hexDigits 8 h "".

(** ** Identifier pool *)

(** [IDPool.h] is included by [SceneTab.h]; the editor calls [NewID],
    [TakeID] and [Clear] on [idPool_].  Its operations are modelled from the
    contract the specification gives for the Identifier Pool. *)
Module IDPool.

(** State: "a set of currently-issued identifiers". *)
Abbreviation t := (gset N) (only parsing).

Definition Contains (id : StringHash) (pool : t) : bool :=
  bool_decide (id ∈ pool).

(** Modelled from the spec: [IDPool::NewID], declared in [IDPool.h].
    allocate "returns an identifier not currently held by any live
    session".  The allocation scheme is left open ("any scheme guaranteeing
    uniqueness works"), so the choice of the identifier is the parameter
    [pick]. *)
Definition NewID (pick : t → StringHash) (pool : t) : StringHash * t :=
  let id := pick pool in (id, {[id]} ∪ pool).

(** Modelled from the spec: [IDPool::TakeID], declared in [IDPool.h].
    reserve claims "a specific identifier coming from persisted data; fails
    (false) if already held". *)
Definition TakeID (id : StringHash) (pool : t) : bool * t :=
  if Contains id pool then (false, pool) else (true, {[id]} ∪ pool).

(** Modelled from the spec: the pool's reclaim operation, declared in
    [IDPool.h].  It "returns true if id was held and is now freed
    (reusable), false if id was not currently held". *)
Definition Reclaim (id : StringHash) (pool : t) : bool * t :=
  if Contains id pool then (true, pool ∖ {[id]}) else (false, pool).

(** Modelled from the spec: [IDPool::Clear], declared in [IDPool.h].  It
    "releases all held identifiers". *)
Definition Clear (pool : t) : t := ∅.

(** A client of the pool: the identifiers handed out and not yet given
    back, one entry per successful [NewID]/[TakeID]. *)
Inductive Op :=
| OpNewID
| OpTakeID (id : StringHash)
| OpReclaim (id : StringHash)
| OpClear.

Fixpoint remove_one (id : StringHash) (held : list StringHash) : list StringHash :=
  match held with
  | [] => []
  | h :: rest => if bool_decide (h = id) then rest else h :: remove_one id rest
  end.

Definition step (pick : t → StringHash) (st : t * list StringHash) (op : Op)
  : t * list StringHash :=
  let '(pool, held) := st in
  match op with
  | OpNewID => let '(id, pool') := NewID pick pool in (pool', id :: held)
  | OpTakeID id =>
      let '(ok, pool') := TakeID id pool in
      (pool', if ok then id :: held else held)
  | OpReclaim id =>
      let '(ok, pool') := Reclaim id pool in
      (pool', if ok then remove_one id held else held)
  | OpClear => (Clear pool, [])
  end.

Definition run (pick : t → StringHash) (ops : list Op) : t * list StringHash :=
  foldl (step pick) (∅, []) ops.

(** A correct allocation scheme never picks a held identifier. *)
Definition pick_fresh (pick : t → StringHash) : Prop := ∀ pool, pick pool ∉ pool.

End IDPool.

(** ** Scene tabs *)

Inductive DockSlot_ :=
| Slot_Left | Slot_Right | Slot_Top | Slot_Bottom | Slot_Tab | Slot_Float | Slot_None.

(** The members of [SceneTab] that the editor reads or writes. [scene_] is
    the scene owned by the tab ([SceneView::GetScene]); [settings_] stands for
    the nested scene-settings blocks, which the editor passes through. *)
Record SceneTab := mkSceneTab {
  id_ : StringHash;
  title_ : string;
  uniqueTitle_ : string;
  path_ : string;
  isActive_ : bool;
  placeAfter_ : string;
  placePosition_ : DockSlot_;
  isRendered_ : bool;
  scene_ : ptr;
  settings_ : string
}.

Definition GetID (t : SceneTab) : StringHash := id_ t.
Definition GetTitle (t : SceneTab) : string := title_ t.
Definition GetUniqueTitle (t : SceneTab) : string := uniqueTitle_ t.
Definition SceneTab_IsActive (t : SceneTab) : bool := isActive_ t.
Definition IsRendered (t : SceneTab) : bool := isRendered_ t.
Definition GetScene (t : SceneTab) : ptr := scene_ t.

(** Modelled from the spec: [SceneTab::SetTitle], defined in [SceneTab.cpp].
    The unique title is derived: "title + identifier". *)
Definition SetTitle (title : string) (t : SceneTab) : SceneTab :=
  {| id_ := id_ t; title_ := title; uniqueTitle_ := title +:+ ToString (id_ t);
     path_ := path_ t; isActive_ := isActive_ t; placeAfter_ := placeAfter_ t;
     placePosition_ := placePosition_ t; isRendered_ := isRendered_ t;
     scene_ := scene_ t; settings_ := settings_ t |}.

(** Modelled from the spec: the constructor [SceneTab::SceneTab], defined in
    [SceneTab.cpp].  The members take the initialisers of [SceneTab.h]
    ([title_ = "Scene"], [isActive_ = false], [isRendered_ = false]), the
    identifier and the docking placement are the arguments, and the unique
    title is derived from title and identifier.  The new tab owns a new
    scene, named here by the address of the tab. *)
Definition SceneTab_new (self : ptr) (id : StringHash) (afterDockName : string)
    (position : DockSlot_) : SceneTab :=
  SetTitle "Scene"
    {| id_ := id; title_ := "Scene"; uniqueTitle_ := ""; path_ := "";
       isActive_ := false; placeAfter_ := afterDockName;
       placePosition_ := position; isRendered_ := false;
       scene_ := self; settings_ := "" |}.

(** Modelled from the spec: [SceneTab::ClearCachedPaths], defined in
    [SceneTab.cpp]; [SceneTab.h] documents it as "Clearing cached paths forces
    choosing a file name next time scene is saved", and the path is "empty ⇒
    unsaved". *)
Definition ClearCachedPaths (t : SceneTab) : SceneTab :=
  {| id_ := id_ t; title_ := title_ t; uniqueTitle_ := uniqueTitle_ t;
     path_ := ""; isActive_ := isActive_ t; placeAfter_ := placeAfter_ t;
     placePosition_ := placePosition_ t; isRendered_ := isRendered_ t;
     scene_ := scene_ t; settings_ := settings_ t |}.

(** What the panel host reports for one tab in one frame. *)
Record PanelReport := mkPanelReport {
  open : bool;      (* the dock was not dismissed *)
  visible : bool;   (* the dock contents were drawn *)
  focused : bool    (* the dock is active and the window focused *)
}.

(** Modelled from the spec: [SceneTab::RenderWindow], defined in
    [SceneTab.cpp].  It "returns false exactly when the user has requested this session be
    closed", and the visibility and focus state are "refreshed every call". *)
Definition RenderWindow (r : PanelReport) (t : SceneTab) : SceneTab * bool :=
  ({| id_ := id_ t; title_ := title_ t; uniqueTitle_ := uniqueTitle_ t;
      path_ := path_ t; isActive_ := focused r; placeAfter_ := placeAfter_ t;
      placePosition_ := placePosition_ t; isRendered_ := visible r;
      scene_ := scene_ t; settings_ := settings_ t |}, open r).

(** One [<scene>] element of the project file. *)
Record SceneEl := mkSceneEl {
  el_id : StringHash;
  el_title : string;
  el_path : string;
  el_settings : string
}.

(** Modelled from the spec: [SceneTab::SaveProject], defined in
    [SceneTab.cpp].  It writes "identifier, title, file path, and nested
    scene-settings blocks". *)
Definition SceneTab_SaveProject (t : SceneTab) : SceneEl :=
  {| el_id := id_ t; el_title := title_ t; el_path := path_ t;
     el_settings := settings_ t |}.

(** Modelled from the spec: [SceneTab::LoadProject], defined in
    [SceneTab.cpp].  It reads back what [SceneTab::SaveProject] writes; the
    unique title follows the restored title and identifier. *)
Definition SceneTab_LoadProject (scene : SceneEl) (t : SceneTab) : SceneTab :=
  SetTitle (el_title scene)
    {| id_ := el_id scene; title_ := title_ t; uniqueTitle_ := uniqueTitle_ t;
       path_ := el_path scene; isActive_ := isActive_ t;
       placeAfter_ := placeAfter_ t; placePosition_ := placePosition_ t;
       isRendered_ := isRendered_ t; scene_ := scene_ t;
       settings_ := el_settings scene |}.

(** ** Handles *)

(** [SharedPtr<SceneTab>] entries of [sceneTabs_] are pairs of the object's
    address and the object.  [sceneTabs_] is the only lasting owner of a tab,
    so a tab is alive exactly while it is in [sceneTabs_].

    [activeTab_] is a [WeakPtr<SceneTab>], with the operations of Urho3D's
    [Container/Ptr.h]: [Null()] tests that no reference count is attached,
    [Expired()] that there is none or that the object is gone, and
    [operator->] goes through [Get()], which is null once expired. *)
Inductive WeakPtr :=
| WeakNull                (* never assigned: no reference count attached *)
| WeakTo (p : ptr).       (* assigned; the object may be gone *)

#[global] Instance WeakPtr_eq_dec : EqDecision WeakPtr.
Proof. solve_decision. Defined.

Fixpoint find_tab (p : ptr) (tabs : list (ptr * SceneTab)) : option SceneTab :=
  match tabs with
  | [] => None
  | (q, t) :: rest => if bool_decide (q = p) then Some t else find_tab p rest
  end.

(** [WeakPtr::Get]: the raw pointer, null once the object has expired. *)
Definition Get (w : WeakPtr) (tabs : list (ptr * SceneTab)) : option SceneTab :=
  match w with
  | WeakNull => None
  | WeakTo p => find_tab p tabs
  end.

(** [WeakPtr::Null]: true only when no reference count is attached, that is
    when the handle was never assigned. *)
Definition Null (w : WeakPtr) : bool :=
  match w with WeakNull => true | WeakTo _ => false end.

(** [WeakPtr::Expired]: "If null pointer, always return true". *)
Definition Expired (w : WeakPtr) (tabs : list (ptr * SceneTab)) : bool :=
  match Get w tabs with None => true | Some _ => false end.

(** The outcome of code that dereferences handles. [Fault] is a dereference
    of a null raw pointer or [Front()] of an empty vector. *)
Inductive Result (A : Type) :=
| Ok (a : A)
| Fault.
Arguments Ok {A} a.
Arguments Fault {A}.

#[global] Instance Result_bind : MBind Result :=
  λ A B k r, match r with Ok a => k a | Fault => Fault end.

(** [operator->] of a [WeakPtr]. *)
Definition Arrow (w : WeakPtr) (tabs : list (ptr * SceneTab)) : Result SceneTab :=
  match Get w tabs with Some t => Ok t | None => Fault end.

(** ** Project file and editor state *)

Record Window := mkWindow { width : Z; height : Z; x_ : Z; y_ : Z }.

(** The dock layout is opaque to the editor. *)
Abbreviation DockLayout := string (only parsing).

(** The root element of a project file, as [LoadProject] reads it: each child
    may be missing. *)
Record XMLRoot := mkXMLRoot {
  r_version : string;
  r_window : option Window;
  r_scenes : option (list SceneEl);
  r_docks : option DockLayout
}.

Record XMLFile := mkXMLFile { GetRoot : option XMLRoot }.

Inductive Event :=
| Io_SaveFile (path : string) (ok : bool)
| LogError_SaveFailed (path : string)
| LogError_IdTaken (id : StringHash)
| Call_SaveScene (p : ptr)
| Call_LoadScene (p : ptr) (path : string)
| Call_RenderSceneNodeTree (p : ptr)
| Call_RenderInspector (p : ptr)
| Call_RenderGizmoButtons (p : ptr)
| Call_SetNextDockPos (name : string)
| Send_EditorToolbarButtons
| Call_Exit.

#[global] Instance Event_eq_dec : EqDecision Event.
Proof. solve_decision. Defined.

(** The editor, the subsystems it drives, the files it can see and a
    chronological trace of its outward calls. *)
Record Editor := mkEditor {
  sceneTabs_ : list (ptr * SceneTab);
  activeTab_ : WeakPtr;
  idPool_ : gset N;
  projectFilePath_ : string;
  window_ : Window;
  docks_ : DockLayout;
  disk_ : gmap string XMLFile;
  log_ : list Event;
  heapTop_ : ptr
}.

Definition set_sceneTabs (v : list (ptr * SceneTab)) (e : Editor) : Editor :=
  mkEditor v (activeTab_ e) (idPool_ e) (projectFilePath_ e) (window_ e)
    (docks_ e) (disk_ e) (log_ e) (heapTop_ e).
Definition set_activeTab (v : WeakPtr) (e : Editor) : Editor :=
  mkEditor (sceneTabs_ e) v (idPool_ e) (projectFilePath_ e) (window_ e)
    (docks_ e) (disk_ e) (log_ e) (heapTop_ e).
Definition set_idPool (v : gset N) (e : Editor) : Editor :=
  mkEditor (sceneTabs_ e) (activeTab_ e) v (projectFilePath_ e) (window_ e)
    (docks_ e) (disk_ e) (log_ e) (heapTop_ e).
Definition set_projectFilePath (v : string) (e : Editor) : Editor :=
  mkEditor (sceneTabs_ e) (activeTab_ e) (idPool_ e) v (window_ e)
    (docks_ e) (disk_ e) (log_ e) (heapTop_ e).
Definition set_window (v : Window) (e : Editor) : Editor :=
  mkEditor (sceneTabs_ e) (activeTab_ e) (idPool_ e) (projectFilePath_ e) v
    (docks_ e) (disk_ e) (log_ e) (heapTop_ e).
Definition set_docks (v : DockLayout) (e : Editor) : Editor :=
  mkEditor (sceneTabs_ e) (activeTab_ e) (idPool_ e) (projectFilePath_ e)
    (window_ e) v (disk_ e) (log_ e) (heapTop_ e).
Definition set_disk (v : gmap string XMLFile) (e : Editor) : Editor :=
  mkEditor (sceneTabs_ e) (activeTab_ e) (idPool_ e) (projectFilePath_ e)
    (window_ e) (docks_ e) v (log_ e) (heapTop_ e).
Definition emit (ev : Event) (e : Editor) : Editor :=
  mkEditor (sceneTabs_ e) (activeTab_ e) (idPool_ e) (projectFilePath_ e)
    (window_ e) (docks_ e) (disk_ e) (log_ e ++ [ev]) (heapTop_ e).
Definition set_heapTop (v : ptr) (e : Editor) : Editor :=
  mkEditor (sceneTabs_ e) (activeTab_ e) (idPool_ e) (projectFilePath_ e)
    (window_ e) (docks_ e) (disk_ e) (log_ e) v.

(** What lies outside the editor: the engine's path test, the resource cache,
    whether a file can be written, and the identifier the pool picks. *)
Record Env := mkEnv {
  IsAbsolutePath : string → bool;           (* Urho3D::IsAbsolutePath *)
  GetResource : string → option XMLFile;    (* ResourceCache::GetResource<XMLFile> *)
  SaveFile_ok : string → bool;              (* does XMLFile::SaveFile succeed *)
  LoadScene_ok : string → bool;             (* does the scene resource load *)
  IsSceneContent : string → bool;           (* GetContentType(..) == CTYPE_SCENE *)
  pick : gset N → StringHash                (* the identifier NewID chooses *)
}.

(** What the immediate-mode UI returns during [RenderMenuBar]. *)
Record MenuInput := mkMenuInput {
  BeginMainMenuBar : bool;
  BeginMenu_File : bool;
  MenuItem_SaveProject : bool;
  MenuItem_SaveProjectAs : bool;
  MenuItem_OpenProject : bool;
  openFileDialog : string;      (* empty when cancelled *)
  MenuItem_NewScene : bool;
  MenuItem_Exit : bool;
  ToolbarButton_Save : bool;
  saveFileDialog : string       (* empty when cancelled *)
}.

(** What the UI returns during one [OnUpdate]. *)
Record FrameInput := mkFrameInput {
  menu : MenuInput;
  BeginDock_Hierarchy : bool;
  host : ptr → PanelReport;
  BeginDock_Inspector : bool;
  ResourceBrowserWindow : option string   (* the selected resource, if any *)
}.

(** ** The editor's operations *)

Definition modify_tab (p : ptr) (f : SceneTab → SceneTab)
    (tabs : list (ptr * SceneTab)) : list (ptr * SceneTab) :=
  map (λ '(q, t), if bool_decide (q = p) then (q, f t) else (q, t)) tabs.

(** Modelled from the spec: [SceneTab::LoadScene], defined in [SceneTab.cpp].
    "on failure leaves prior state untouched"; on success the tab remembers
    the path ([path_] is the "last resource path scene was loaded from or
    saved to"). *)
Definition LoadScene (ok : bool) (filePath : string) (t : SceneTab) : SceneTab :=
  if ok then
    {| id_ := id_ t; title_ := title_ t; uniqueTitle_ := uniqueTitle_ t;
       path_ := filePath; isActive_ := isActive_ t; placeAfter_ := placeAfter_ t;
       placePosition_ := placePosition_ t; isRendered_ := isRendered_ t;
       scene_ := scene_ t; settings_ := settings_ t |}
  else t.

(** [Editor::Editor]: no tabs, no active tab, an empty pool, no project
    path.  The window is the one [Editor::Setup] asks for. *)
Definition Editor_new (disk : gmap string XMLFile) : Editor :=
  {| sceneTabs_ := []; activeTab_ := WeakNull; idPool_ := ∅;
     projectFilePath_ := ""; window_ := mkWindow 1920 1080 0 0; docks_ := "";
     disk_ := disk; log_ := []; heapTop_ := 0 |}.

Definition DefaultEditorProject : string := "Etc/DefaultEditorProject.xml".

Section Editor.
Context (env : Env).

(** [Editor::CreateNewScene(XMLElement project)]; a null [project] is
    [None].  The result is the raw pointer returned, [None] for [nullptr]. *)
Definition CreateNewScene (project : option SceneEl) (e : Editor)
  : Editor * option ptr :=
  let '(id, e) :=
    match project with
    | None =>
        let '(id, pool) := IDPool.NewID (pick env) (idPool_ e) in
        (id, set_idPool pool e)
    | Some _ => (0%N, e)
    end in
  let self := heapTop_ e in
  let e := set_heapTop (S self) e in
  let sceneTab :=
    match last (sceneTabs_ e) with
    | None => SceneTab_new self id "Hierarchy" Slot_Right
    | Some back => SceneTab_new self id (GetUniqueTitle back.2) Slot_Tab
    end in
  match project with
  | Some scene =>
      let sceneTab := SceneTab_LoadProject scene sceneTab in
      let '(taken, pool) := IDPool.TakeID (GetID sceneTab) (idPool_ e) in
      if taken
      then (set_sceneTabs (sceneTabs_ e ++ [(self, sceneTab)]) (set_idPool pool e),
            Some self)
      else (emit (LogError_IdTaken (GetID sceneTab)) e, None)
  | None => (set_sceneTabs (sceneTabs_ e ++ [(self, sceneTab)]) e, Some self)
  end.

(** [Editor::SaveProject]. *)
Definition SaveProject (filePath : string) (e : Editor) : Editor :=
  if bool_decide (filePath = "") then e
  else
    let root :=
      {| r_version := "0";
         r_window := Some (window_ e);
         r_scenes := Some (map (λ st, SceneTab_SaveProject st.2) (sceneTabs_ e));
         r_docks := Some (docks_ e) |} in
    let xml := {| GetRoot := Some root |} in
    if SaveFile_ok env filePath
    then emit (Io_SaveFile filePath true) (set_disk (<[filePath := xml]> (disk_ e)) e)
    else emit (LogError_SaveFailed filePath) (emit (Io_SaveFile filePath false) e).

(** The document [LoadProject] ends up reading: the cached resource for a
    relative path, else the file itself. *)
Definition OpenXML (filePath : string) (e : Editor) : option XMLFile :=
  match (if IsAbsolutePath env filePath then None else GetResource env filePath) with
  | Some xml => Some xml
  | None => disk_ e !! filePath
  end.

(** [ui::LoadDock]; a missing [docks] element leaves the layout alone. *)
Definition LoadDock (d : option DockLayout) (e : Editor) : Editor :=
  match d with Some l => set_docks l e | None => e end.

(** [Editor::LoadProject]. *)
Definition LoadProject (filePath : string) (e : Editor) : Editor :=
  if bool_decide (filePath = "") then e
  else
    match OpenXML filePath e with
    | None => e
    | Some xml =>
        match GetRoot xml with
        | None => e
        | Some root =>
            let e := set_idPool (IDPool.Clear (idPool_ e)) e in
            let e := match r_window root with
                     | Some w => set_window w e
                     | None => e
                     end in
            let e := set_sceneTabs [] e in
            let e := match r_scenes root with
                     | Some scenes =>
                         foldl (λ acc scene, (CreateNewScene (Some scene) acc).1) e scenes
                     | None => e
                     end in
            LoadDock (r_docks root) e
        end
    end.

(** Modelled from the spec: the release of the identifier of a closed tab.
    [Editor.cpp] only erases the tab from [sceneTabs_]; what happens to its
    identifier is decided in [SceneTab.cpp] and [IDPool.h].  For a session
    whose [renderFrame] returns false, "the session is removed from the
    sequence (its identifier is reclaimed)". *)
Definition ReclaimID (tab : SceneTab) (pool : gset N) : gset N :=
  (IDPool.Reclaim (GetID tab) pool).2.

(** The loop over [sceneTabs_] in [Editor::OnUpdate].  A tab whose
    [RenderWindow] returns false is erased. *)
Fixpoint OnUpdate_sceneTabs (report : ptr → PanelReport)
    (tabs : list (ptr * SceneTab)) (renderedWasActive : bool)
    (active : WeakPtr) (pool : gset N)
  : list (ptr * SceneTab) * WeakPtr * gset N :=
  match tabs with
  | [] => ([], active, pool)
  | (p, tab) :: rest =>
      let '(tab, opened) := RenderWindow (report p) tab in
      if opened then
        let '(renderedWasActive, active) :=
          if IsRendered tab then
            if renderedWasActive && SceneTab_IsActive tab
            then (renderedWasActive, WeakTo p)
            else if negb renderedWasActive
                 then (SceneTab_IsActive tab, WeakTo p)
                 else (renderedWasActive, active)
          else (renderedWasActive, active) in
        let '(rest', active, pool) :=
          OnUpdate_sceneTabs report rest renderedWasActive active pool in
        ((p, tab) :: rest', active, pool)
      else
        OnUpdate_sceneTabs report rest renderedWasActive active (ReclaimID tab pool)
  end.

Definition runFrame (report : ptr → PanelReport) (e : Editor) : Editor :=
  let '(tabs, active, pool) :=
    OnUpdate_sceneTabs report (sceneTabs_ e) false (activeTab_ e) (idPool_ e) in
  set_idPool pool (set_activeTab active (set_sceneTabs tabs e)).

(** The address behind a handle that is known not to have expired. *)
Definition WithActive (f : ptr → SceneTab → Editor → Editor) (e : Editor)
  : Result Editor :=
  t ← Arrow (activeTab_ e) (sceneTabs_ e);
  match activeTab_ e with
  | WeakTo p => Ok (f p t e)
  | WeakNull => Fault
  end.

(** [Editor::RenderMenuBar], the menu and the toolbar: the new state and
    the local [save]. *)
Definition RenderMenuBar_items (ui : MenuInput) (e : Editor)
  : Result (bool * Editor) :=
  if BeginMainMenuBar ui then
    let '(save, e) :=
      if BeginMenu_File ui then
        let save := MenuItem_SaveProject ui in
        let '(save, e) :=
          if MenuItem_SaveProjectAs ui
          then (true, set_projectFilePath "" e)
          else (save, e) in
        let e :=
          if MenuItem_OpenProject ui
          then LoadProject (openFileDialog ui)
                 (set_projectFilePath (openFileDialog ui) e)
          else e in
        let e := if MenuItem_NewScene ui then (CreateNewScene None e).1 else e in
        let e := if MenuItem_Exit ui then emit Call_Exit e else e in
        (save, e)
      else (false, e) in
    if negb (Expired (activeTab_ e) (sceneTabs_ e)) then
      e ← WithActive (λ p _ e, emit Send_EditorToolbarButtons
                                  (emit (Call_RenderGizmoButtons p) e)) e;
      Ok (save || ToolbarButton_Save ui, e)
    else Ok (save, e)
  else Ok (false, e).

(** [Editor::RenderMenuBar], the body of [if (save)]. *)
Definition RenderMenuBar_save (ui : MenuInput) (e : Editor) : Editor :=
  let e :=
    if bool_decide (projectFilePath_ e = "")
    then set_projectFilePath (saveFileDialog ui) e
    else e in
  let e := SaveProject (projectFilePath_ e) e in
  foldl (λ acc st, emit (Call_SaveScene st.1) acc) e (sceneTabs_ e).

(** [Editor::RenderMenuBar]. *)
Definition RenderMenuBar (ui : MenuInput) (e : Editor) : Result Editor :=
  '(save, e) ← RenderMenuBar_items ui e;
  if save : bool then Ok (RenderMenuBar_save ui e) else Ok e.

(** [Editor::OnUpdate]. *)
Definition OnUpdate (ui : FrameInput) (e : Editor) : Result Editor :=
  e ← RenderMenuBar (menu ui) e;
  e ← (if BeginDock_Hierarchy ui then
         if negb (Expired (activeTab_ e) (sceneTabs_ e))
         then WithActive (λ p _ e, emit (Call_RenderSceneNodeTree p) e) e
         else Ok e
       else Ok e);
  let e := runFrame (host ui) e in
  e ← (if negb (Expired (activeTab_ e) (sceneTabs_ e))
       then WithActive (λ _ t e, emit (Call_SetNextDockPos (GetUniqueTitle t)) e) e
       else Ok e);
  e ← (if BeginDock_Inspector ui then
         if negb (Expired (activeTab_ e) (sceneTabs_ e))
         then WithActive (λ p _ e, emit (Call_RenderInspector p) e) e
         else Ok e
       else Ok e);
  e ← (match last (sceneTabs_ e) with
       | Some back => Ok (emit (Call_SetNextDockPos (GetUniqueTitle back.2)) e)
       | None => Ok e
       end);
  match ResourceBrowserWindow ui with
  | Some selected =>
      if IsSceneContent env selected then
        match CreateNewScene None e with
        | (e, Some p) =>
            Ok (emit (Call_LoadScene p selected)
                  (set_sceneTabs
                     (modify_tab p (LoadScene (LoadScene_ok env selected) selected)
                        (sceneTabs_ e)) e))
        | (_, None) => Fault
        end
      else Ok e
  | None => Ok e
  end.

(** [Editor::Start], from the point where the default project is loaded. *)
Definition Start (e : Editor) : Result Editor :=
  let e := LoadProject DefaultEditorProject e in
  match sceneTabs_ e with
  | [] => Fault
  | (p, front) :: rest => Ok (set_sceneTabs ((p, ClearCachedPaths front) :: rest) e)
  end.

(** [Editor::Stop]. *)
Definition Stop (e : Editor) : Editor := SaveProject (projectFilePath_ e) e.

(** [Editor::IsActive(Scene* scene)]; a null [scene] is [None]. *)
Definition IsActive (scene : option ptr) (e : Editor) : Result bool :=
  if bool_decide (scene = None) || Null (activeTab_ e) then Ok false
  else
    t ← Arrow (activeTab_ e) (sceneTabs_ e);
    if bool_decide (Some (GetScene t) = scene)
    then t ← Arrow (activeTab_ e) (sceneTabs_ e); Ok (SceneTab_IsActive t)
    else Ok false.

End Editor.

(** The identifiers, addresses and persisted blocks of the open tabs. *)
Definition tab_ids (e : Editor) : list StringHash := map (λ st, id_ st.2) (sceneTabs_ e).
Definition tab_ptrs (e : Editor) : list ptr := map fst (sceneTabs_ e).
Definition tab_blocks (e : Editor) : list SceneEl :=
  map (λ st, SceneTab_SaveProject st.2) (sceneTabs_ e).

(** The blocks of a document that [LoadProject] restores, given the
    identifiers already held: a block is skipped when its identifier is. *)
Fixpoint restored (seen : gset N) (scenes : list SceneEl) : list SceneEl :=
  match scenes with
  | [] => []
  | b :: rest =>
      if bool_decide (el_id b ∈ seen) then restored seen rest
      else b :: restored ({[el_id b]} ∪ seen) rest
  end.

(** The identity conflicts reported for a document. *)
Fixpoint conflicts (seen : gset N) (scenes : list SceneEl) : list Event :=
  match scenes with
  | [] => []
  | b :: rest =>
      if bool_decide (el_id b ∈ seen)
      then LogError_IdTaken (el_id b) :: conflicts seen rest
      else conflicts ({[el_id b]} ∪ seen) rest
  end.

(** Concrete surroundings used in the examples: paths starting with a slash
    are absolute, nothing is cached, every write succeeds, and the pool picks
    the least identifier not in use. *)
Definition demo_env : Env :=
  {| IsAbsolutePath := λ p, match p with String "/" _ => true | _ => false end;
     GetResource := λ _, None;
     SaveFile_ok := λ _, true;
     LoadScene_ok := λ _, true;
     IsSceneContent := λ _, true;
     pick := λ pool, fresh pool |}.

(** Two untitled scenes, both called "Scene". *)
Definition two_scenes : Editor :=
  (CreateNewScene demo_env None (CreateNewScene demo_env None (Editor_new ∅)).1).1.

(** ** Derived notions used in the statements *)

(** What a client holds is duplicate-free and is exactly what the pool has
    recorded as issued. *)
Definition pool_inv (st : gset N * list N) : Prop :=
  NoDup st.2 ∧ ∀ id, id ∈ st.2 ↔ id ∈ st.1.

(** The loop of [LoadProject] over the scene blocks of a document. *)
Definition restore_all (env : Env) (scenes : list SceneEl) (e : Editor) : Editor :=
  foldl (λ acc scene, (CreateNewScene env (Some scene) acc).1) e scenes.

(** A tab whose unique title is the one derived from its title and
    identifier. *)
Definition title_derived (st : ptr * SceneTab) : Prop :=
  uniqueTitle_ st.2 = title_ st.2 +:+ ToString (id_ st.2).

(** Equations between finite sets, settled element by element. *)
Ltac gset_eq :=
  apply set_eq; intros ?;
  repeat first [ rewrite elem_of_union | rewrite elem_of_difference
               | rewrite elem_of_singleton | rewrite elem_of_empty ];
  intuition (subst; tauto).

(** The tab at [p] stays open, is drawn, and reports focus. *)
Definition claims_focus (report : ptr → PanelReport) (p : ptr) : bool :=
  open (report p) && visible (report p) && focused (report p).

(** The tab at [p] stays open and is drawn. *)
Definition is_drawn (report : ptr → PanelReport) (p : ptr) : bool :=
  open (report p) && visible (report p).

(** The claim that the earliest tab reporting focus ends up active. *)
Definition first_focused_wins (report : ptr → PanelReport) (e : Editor) : Prop :=
  ∀ p, head (filter (λ q, claims_focus report q) (tab_ptrs e)) = Some p →
       activeTab_ (runFrame report e) = WeakTo p.

(** Every report says: open, drawn and focused. *)
Definition all_focused : ptr → PanelReport := λ _, mkPanelReport true true true.

(** Every report says: dismissed. *)
Definition all_closed : ptr → PanelReport := λ _, mkPanelReport false false false.

(** The claim that a save action saves the scene of the active tab only. *)
Definition saves_only_active (env : Env) (ui : MenuInput) (e : Editor) : Prop :=
  ∀ e' p, RenderMenuBar env ui e = Ok e' →
          Call_SaveScene p ∈ log_ e' → activeTab_ e' = WeakTo p.

(** The toolbar save button pressed, the File menu closed. *)
Definition toolbar_save : MenuInput :=
  {| BeginMainMenuBar := true; BeginMenu_File := false;
     MenuItem_SaveProject := false; MenuItem_SaveProjectAs := false;
     MenuItem_OpenProject := false; openFileDialog := "";
     MenuItem_NewScene := false; MenuItem_Exit := false;
     ToolbarButton_Save := true; saveFileDialog := "/project.xml" |}.

(** Two scenes, the first of them active. *)
Definition two_scenes_first_active : Editor :=
  runFrame (λ p, mkPanelReport true true (bool_decide (p = 0%nat))) two_scenes.

(** One scene, active. *)
Definition one_scene_active : Editor :=
  runFrame all_focused (CreateNewScene demo_env None (Editor_new ∅)).1.

(** A frame in which every dock was dismissed and nothing else happened. *)
Definition closing_frame : FrameInput :=
  {| menu := {| BeginMainMenuBar := true; BeginMenu_File := false;
                MenuItem_SaveProject := false; MenuItem_SaveProjectAs := false;
                MenuItem_OpenProject := false; openFileDialog := "";
                MenuItem_NewScene := false; MenuItem_Exit := false;
                ToolbarButton_Save := false; saveFileDialog := "" |};
     BeginDock_Hierarchy := true;
     host := all_closed;
     BeginDock_Inspector := true;
     ResourceBrowserWindow := None |}.

(** The identifiers of the open tabs are pairwise different and held by the
    pool. *)
Definition ids_unique (e : Editor) : Prop :=
  NoDup (tab_ids e) ∧ ∀ id, id ∈ tab_ids e → id ∈ idPool_ e.

(** The states the editor can be in: it is constructed, and then its
    operations run in any order, on any input. *)
Inductive reachable (env : Env) : Editor → Prop :=
| reach_new disk : reachable env (Editor_new disk)
| reach_Start e e' : reachable env e → Start env e = Ok e' → reachable env e'
| reach_OnUpdate ui e e' :
    reachable env e → OnUpdate env ui e = Ok e' → reachable env e'
| reach_Stop e : reachable env e → reachable env (Stop env e)
| reach_LoadProject path e : reachable env e → reachable env (LoadProject env path e)
| reach_SaveProject path e : reachable env e → reachable env (SaveProject env path e)
| reach_CreateNewScene project e :
    reachable env e → reachable env (CreateNewScene env project e).1.

Create HintDb ids discriminated.

(** Addresses are handed out in increasing order: every open tab, and the
    tab [activeTab_] was last pointed at, lies below [heapTop_]. *)
Definition heap_ok (e : Editor) : Prop :=
  Forall (λ p, (p < heapTop_ e)%nat) (tab_ptrs e)
  ∧ ∀ p, activeTab_ e = WeakTo p → (p < heapTop_ e)%nat.

(** The document [SaveProject] writes for the state [e]. *)
Definition project_document (e : Editor) : XMLFile :=
  {| GetRoot := Some {| r_version := "0";
                        r_window := Some (window_ e);
                        r_scenes := Some (tab_blocks e);
                        r_docks := Some (docks_ e) |} |}.

(** A frame in which every dock is open, drawn and focused and nothing else
    happens. *)
Definition focus_frame : FrameInput :=
  {| menu := {| BeginMainMenuBar := true; BeginMenu_File := false;
                MenuItem_SaveProject := false; MenuItem_SaveProjectAs := false;
                MenuItem_OpenProject := false; openFileDialog := "";
                MenuItem_NewScene := false; MenuItem_Exit := false;
                ToolbarButton_Save := false; saveFileDialog := "" |};
     BeginDock_Hierarchy := true;
     host := all_focused;
     BeginDock_Inspector := true;
     ResourceBrowserWindow := None |}.

(** A session with one scene, shown for one frame and then saved. *)
Definition saved_session : Editor :=
  match OnUpdate demo_env focus_frame (CreateNewScene demo_env None (Editor_new ∅)).1 with
  | Ok e => SaveProject demo_env "/project.xml" e
  | Fault => Editor_new ∅
  end.

(** "Save Project As" chosen in the File menu, the dialog cancelled. *)
Definition save_as_cancelled : MenuInput :=
  {| BeginMainMenuBar := true; BeginMenu_File := true;
     MenuItem_SaveProject := false; MenuItem_SaveProjectAs := true;
     MenuItem_OpenProject := false; openFileDialog := "";
     MenuItem_NewScene := false; MenuItem_Exit := false;
     ToolbarButton_Save := false; saveFileDialog := "" |}.

(** "Open Project" chosen in the File menu, with the file the dialog
    returned. *)
Definition open_project (file : string) : MenuInput :=
  {| BeginMainMenuBar := true; BeginMenu_File := true;
     MenuItem_SaveProject := false; MenuItem_SaveProjectAs := false;
     MenuItem_OpenProject := true; openFileDialog := file;
     MenuItem_NewScene := false; MenuItem_Exit := false;
     ToolbarButton_Save := false; saveFileDialog := "" |}.

(** The docking placement of a run of tabs created one after the other:
    the first docks to the right of [prev] when the registry was empty, and
    every other one as a tab of the tab created before it. *)
Fixpoint docked_after (prev : option string) (tabs : list SceneTab) : Prop :=
  match tabs with
  | [] => True
  | t :: rest =>
      match prev with
      | None => placeAfter_ t = "Hierarchy" ∧ placePosition_ t = Slot_Right
      | Some u => placeAfter_ t = u ∧ placePosition_ t = Slot_Tab
      end
      ∧ docked_after (Some (uniqueTitle_ t)) rest
  end.

(** The frame input with the resource browser left alone. *)
Definition without_browser (ui : FrameInput) : FrameInput :=
  {| menu := menu ui; BeginDock_Hierarchy := BeginDock_Hierarchy ui;
     host := host ui; BeginDock_Inspector := BeginDock_Inspector ui;
     ResourceBrowserWindow := None |}.

(** A frame in which a scene resource is picked in the resource browser. *)
Definition browse_frame : FrameInput :=
  {| menu := menu focus_frame; BeginDock_Hierarchy := true; host := all_focused;
     BeginDock_Inspector := true;
     ResourceBrowserWindow := Some "Scenes/Demo.xml" |}.

(** The values of a C++ [int].  The window attributes of a project file
    go through [ToInt] before they reach the graphics subsystem; on numbers
    in this range [ToInt] is the identity, and [SaveProject] only ever
    writes such numbers. *)
Definition Int_range (z : Z) : Prop := (-2147483648 ≤ z < 2147483648)%Z.

Definition Window_in_range (w : Window) : Prop :=
  Int_range (width w) ∧ Int_range (height w) ∧ Int_range (x_ w) ∧ Int_range (y_ w).

(** * Properties *)

(** ** Hexadecimal rendering of identifiers *)








(** ** The identifier pool *)

Lemma elem_of_remove_one (id x : N) (held : list N) :
  NoDup held → x ∈ IDPool.remove_one id held ↔ x ∈ held ∧ x ≠ id.
Proof.
  induction 1 as [|h held Hh Hnd IH]; simpl.
  - rewrite elem_of_nil. tauto.
  - case_bool_decide as Heq.
    + subst h. rewrite elem_of_cons. split.
      * intros Hx. split; [tauto|]. intros ->. done.
      * intros [[->|Hx] Hne]; done.
    + rewrite !elem_of_cons, IH. split; [|tauto].
      intros [->|[Hx Hne]]; tauto.
Qed.

Lemma NoDup_remove_one (id : N) (held : list N) :
  NoDup held → NoDup (IDPool.remove_one id held).
Proof.
  induction 1 as [|h held Hh Hnd IH]; simpl; [constructor|].
  case_bool_decide; [done|].
  constructor; [|done]. rewrite elem_of_remove_one by done. tauto.
Qed.

Lemma pool_inv_step pick st op :
  IDPool.pick_fresh pick → pool_inv st → pool_inv (IDPool.step pick st op).
Proof.
  intros Hfresh. destruct st as [pool held]. intros [Hnd Hiff]; simpl in *.
  destruct op as [|id|id|]; simpl;
    unfold IDPool.TakeID, IDPool.Reclaim, IDPool.Contains, IDPool.Clear.
  - split; simpl.
    + constructor; [|done]. intros Hin. apply Hiff in Hin. by apply Hfresh in Hin.
    + intros id. rewrite elem_of_cons, elem_of_union, elem_of_singleton.
      specialize (Hiff id). tauto.
  - case_bool_decide as Hin; split; simpl; try done.
    + constructor; [|done]. intros Hin'. by apply Hiff in Hin'.
    + intros i. rewrite elem_of_cons, elem_of_union, elem_of_singleton.
      specialize (Hiff i). tauto.
  - case_bool_decide as Hin; split; simpl; try done.
    + by apply NoDup_remove_one.
    + intros i. rewrite elem_of_remove_one by done.
      rewrite elem_of_difference, elem_of_singleton. specialize (Hiff i). tauto.
  - split; simpl; [constructor|]. intros i.
    rewrite elem_of_nil, elem_of_empty. tauto.
Qed.

Lemma pool_inv_run pick ops : IDPool.pick_fresh pick → pool_inv (IDPool.run pick ops).
Proof.
  intros Hfresh. unfold IDPool.run.
  assert (Hinit : pool_inv (∅, [])).
  { split; simpl; [constructor|]. intros i. rewrite elem_of_nil, elem_of_empty. tauto. }
  revert Hinit. generalize ((∅, []) : gset N * list N).
  induction ops as [|op ops IH]; intros st Hst; simpl; [done|].
  apply IH. by apply pool_inv_step.
Qed.

(** ** Restoring the scenes of a project file *)

Section Restore.
Context (env : Env).

Lemma CreateNewScene_conflict b e :
  el_id b ∈ idPool_ e →
  CreateNewScene env (Some b) e
  = (emit (LogError_IdTaken (el_id b)) (set_heapTop (S (heapTop_ e)) e), None).
Proof.
  intros Hin. unfold CreateNewScene, IDPool.TakeID, IDPool.Contains. simpl.
  destruct (last (sceneTabs_ e)); simpl; by rewrite bool_decide_eq_true_2.
Qed.

Lemma CreateNewScene_restore b e :
  el_id b ∉ idPool_ e →
  ∃ t, CreateNewScene env (Some b) e
       = (set_sceneTabs (sceneTabs_ e ++ [(heapTop_ e, t)])
            (set_idPool ({[el_id b]} ∪ idPool_ e) (set_heapTop (S (heapTop_ e)) e)),
          Some (heapTop_ e))
       ∧ SceneTab_SaveProject t = b ∧ title_derived (heapTop_ e, t).
Proof.
  intros Hin. unfold CreateNewScene, IDPool.TakeID, IDPool.Contains. simpl.
  destruct (last (sceneTabs_ e)); simpl; rewrite bool_decide_eq_false_2 by done;
    (eexists; split; [reflexivity|]); by destruct b.
Qed.

Lemma restore_all_spec scenes e :
  let e' := restore_all env scenes e in
  tab_blocks e' = tab_blocks e ++ restored (idPool_ e) scenes
  ∧ log_ e' = log_ e ++ conflicts (idPool_ e) scenes
  ∧ (Forall title_derived (sceneTabs_ e) → Forall title_derived (sceneTabs_ e'))
  ∧ window_ e' = window_ e ∧ docks_ e' = docks_ e ∧ disk_ e' = disk_ e
  ∧ activeTab_ e' = activeTab_ e ∧ projectFilePath_ e' = projectFilePath_ e.
Proof.
  revert e. induction scenes as [|b scenes IH]; intros e; simpl.
  - rewrite !app_nil_r. tauto.
  - destruct (decide (el_id b ∈ idPool_ e)) as [Hin|Hin].
    + rewrite CreateNewScene_conflict by done. simpl.
      rewrite bool_decide_eq_true_2 by done.
      destruct (IH (emit (LogError_IdTaken (el_id b)) (set_heapTop (S (heapTop_ e)) e)))
        as (H1 & H2 & H3 & H4 & H5 & H6 & H7 & H8).
      fold (restore_all env scenes). simpl in *.
      rewrite H1, H2, <- app_assoc. tauto.
    + destruct (CreateNewScene_restore b e Hin) as (t & -> & Hb & Ht). simpl.
      rewrite bool_decide_eq_false_2 by done.
      fold (restore_all env scenes).
      match goal with |- context [restore_all env scenes ?e0] =>
        destruct (IH e0) as (H1 & H2 & H3 & H4 & H5 & H6 & H7 & H8) end.
      simpl in *.
      rewrite H1, H2. unfold tab_blocks at 1. simpl.
      rewrite map_app, <- app_assoc. simpl. rewrite Hb.
      repeat split; try done.
      intros Hall. apply H3. apply Forall_app. split; [done|].
      by constructor.
Qed.

End Restore.

Lemma restored_fresh seen scenes :
  NoDup (map el_id scenes) →
  (∀ b, b ∈ scenes → el_id b ∉ seen) →
  restored seen scenes = scenes ∧ conflicts seen scenes = [].
Proof.
  revert seen. induction scenes as [|b scenes IH]; intros seen Hnd Hseen; simpl; [done|].
  inversion Hnd as [|? ? Hb Hnd']; subst.
  rewrite bool_decide_eq_false_2 by (apply Hseen; left).
  destruct (IH ({[el_id b]} ∪ seen) Hnd') as [-> ->]; [|done].
  intros b' Hb'. rewrite elem_of_union, elem_of_singleton.
  intros [Heq|Hin].
  - apply Hb. rewrite <- Heq. apply list_elem_of_fmap. by exists b'.
  - apply (Hseen b'); [by right|done].
Qed.

Lemma restored_app seen l1 l2 :
  restored seen (l1 ++ l2)
  = restored seen l1 ++ restored (list_to_set (map el_id l1) ∪ seen) l2
  ∧ conflicts seen (l1 ++ l2)
    = conflicts seen l1 ++ conflicts (list_to_set (map el_id l1) ∪ seen) l2.
Proof.
  revert seen. induction l1 as [|b l1 IH]; intros seen; simpl.
  - by rewrite (left_id_L ∅ (∪)).
  - case_bool_decide as Hin.
    + destruct (IH seen) as [-> ->].
      replace ({[el_id b]} ∪ list_to_set (map el_id l1) ∪ seen)
        with (list_to_set (map el_id l1) ∪ seen : gset N) by gset_eq.
      done.
    + destruct (IH ({[el_id b]} ∪ seen)) as [-> ->].
      replace ({[el_id b]} ∪ list_to_set (map el_id l1) ∪ seen)
        with (list_to_set (map el_id l1) ∪ ({[el_id b]} ∪ seen) : gset N)
        by gset_eq.
      done.
Qed.

(** ** One pass over the tabs *)

Lemma OnUpdate_sceneTabs_active report tabs rwa active pool :
  (OnUpdate_sceneTabs report tabs rwa active pool).1.2
  = match last (filter (λ q, claims_focus report q) (map fst tabs)) with
    | Some p => WeakTo p
    | None =>
        if rwa then active
        else match last (filter (λ q, is_drawn report q) (map fst tabs)) with
             | Some p => WeakTo p
             | None => active
             end
    end.
Proof.
  revert rwa active pool.
  induction tabs as [|[p tab] rest IH]; intros rwa active pool.
  - simpl. by destruct rwa.
  - cbn [OnUpdate_sceneTabs RenderWindow map fst].
    rewrite !filter_cons.
    unfold IsRendered, SceneTab_IsActive. cbn [isRendered_ isActive_].
    assert (Hc : claims_focus report p
                 = open (report p) && visible (report p) && focused (report p))
      by done.
    assert (Hd : is_drawn report p = open (report p) && visible (report p)) by done.
    destruct (open (report p)), (visible (report p)), (focused (report p)), rwa;
      cbn [andb negb] in *;
      try match goal with
        | |- context [OnUpdate_sceneTabs report rest ?r ?a ?pl] =>
            specialize (IH r a pl);
            destruct (OnUpdate_sceneTabs report rest r a pl) as [[ts act] pl']
        end; cbn [fst snd] in *; subst;
      repeat first [ rewrite decide_True by (rewrite ?Hc, ?Hd; simpl; tauto)
                   | rewrite decide_False by (rewrite ?Hc, ?Hd; simpl; tauto) ];
      rewrite ?last_cons;
      try apply IH;
      repeat (match goal with |- context [last ?l] => destruct (last l) end);
      reflexivity.
Qed.

Lemma OnUpdate_sceneTabs_kept report tabs rwa active pool :
  (OnUpdate_sceneTabs report tabs rwa active pool).1.1
  = map (λ st, (st.1, (RenderWindow (report st.1) st.2).1))
      (filter (λ st, open (report st.1)) tabs).
Proof.
  revert rwa active pool.
  induction tabs as [|[p tab] rest IH]; intros rwa active pool; [done|].
  cbn [OnUpdate_sceneTabs RenderWindow]. rewrite filter_cons. cbn [fst snd].
  destruct (open (report p)) eqn:Ho.
  - rewrite decide_True by done.
    unfold IsRendered, SceneTab_IsActive. cbn [isRendered_ isActive_].
    destruct (visible (report p)) eqn:Hv, (focused (report p)) eqn:Hf, rwa;
      cbn [andb negb];
      match goal with
      | |- context [OnUpdate_sceneTabs report rest ?r ?a ?pl] =>
          specialize (IH r a pl);
          destruct (OnUpdate_sceneTabs report rest r a pl) as [[ts act] pl']
      end;
      cbn [fst snd map] in *; rewrite IH; f_equal;
      unfold RenderWindow; cbn [fst]; by rewrite Hv, Hf.
  - rewrite decide_False by (simpl; tauto). apply IH.
Qed.

Lemma OnUpdate_sceneTabs_pool report tabs rwa active pool :
  (OnUpdate_sceneTabs report tabs rwa active pool).2
  = pool ∖ list_to_set
             (map (λ st, id_ st.2) (filter (λ st, ¬ open (report st.1)) tabs)).
Proof.
  revert rwa active pool.
  induction tabs as [|[p tab] rest IH]; intros rwa active pool.
  - simpl. gset_eq.
  - cbn [OnUpdate_sceneTabs RenderWindow]. rewrite filter_cons. cbn [fst snd].
    destruct (open (report p)) eqn:Ho.
    + rewrite decide_False by (simpl; tauto).
      unfold IsRendered, SceneTab_IsActive. cbn [isRendered_ isActive_].
      destruct (visible (report p)), (focused (report p)), rwa; cbn [andb negb];
        match goal with
        | |- context [OnUpdate_sceneTabs report rest ?r ?a ?pl] =>
            specialize (IH r a pl);
            destruct (OnUpdate_sceneTabs report rest r a pl) as [[ts act] pl']
        end;
        cbn [fst snd] in *; done.
    + rewrite decide_True by (simpl; tauto). rewrite IH.
      unfold ReclaimID, IDPool.Reclaim, IDPool.Contains, GetID.
      cbn [id_ map snd list_to_set].
      case_bool_decide as Hin; cbn [snd]; gset_eq.
Qed.

Lemma kept_ptrs (report : ptr → PanelReport) (tabs : list (ptr * SceneTab)) :
  map fst (map (λ st, (st.1, (RenderWindow (report st.1) st.2).1))
             (filter (λ st, open (report st.1)) tabs))
  = filter (λ p, open (report p)) (map fst tabs).
Proof.
  induction tabs as [|[p t] tabs IH]; [done|].
  cbn [map fst]. rewrite !filter_cons. cbn [fst].
  destruct (open (report p)) eqn:Ho.
  - rewrite !decide_True by (rewrite ?Ho; simpl; tauto).
    cbn [map fst]. by rewrite IH.
  - rewrite !decide_False by (rewrite ?Ho; simpl; tauto). done.
Qed.

Lemma runFrame_unfold report e :
  runFrame report e
  = let r := OnUpdate_sceneTabs report (sceneTabs_ e) false (activeTab_ e) (idPool_ e) in
    set_idPool r.2 (set_activeTab r.1.2 (set_sceneTabs r.1.1 e)).
Proof.
  unfold runFrame.
  by destruct (OnUpdate_sceneTabs report (sceneTabs_ e) false (activeTab_ e) (idPool_ e))
    as [[ts act] pl].
Qed.

Lemma runFrame_activeTab report e :
  activeTab_ (runFrame report e)
  = match last (filter (λ q, claims_focus report q) (tab_ptrs e)) with
    | Some p => WeakTo p
    | None =>
        match last (filter (λ q, is_drawn report q) (tab_ptrs e)) with
        | Some p => WeakTo p
        | None => activeTab_ e
        end
    end.
Proof.
  rewrite runFrame_unfold. cbn [activeTab_ set_idPool set_activeTab].
  by rewrite OnUpdate_sceneTabs_active.
Qed.

(** * The claims *)

(** C1, as stated, fails: with two tabs that both stay open, are drawn and
    report focus in the same frame, the tab that ends up active is not the
    earlier one. *)
Lemma first_focused_does_not_win : ¬ first_focused_wins all_focused two_scenes.
Proof.
  intros H. specialize (H 0%nat eq_refl). vm_compute in H. discriminate H.
Qed.

(** C1, as corrected.  When one or more tabs stay open, are drawn and report
    focus in the same frame, the one latest in [sceneTabs_] is the active tab
    after the pass.  In particular, of three tabs A, B, C of which only B
    reports focus (and B is open and drawn), B is the active tab. *)
Theorem runFrame_last_focused_wins report e :
  (∀ p, last (filter (λ q, claims_focus report q) (tab_ptrs e)) = Some p →
        activeTab_ (runFrame report e) = WeakTo p)
  ∧ (∀ a b c A B C,
       sceneTabs_ e = [(a, A); (b, B); (c, C)] →
       claims_focus report b = true →
       focused (report a) = false →
       focused (report c) = false →
       activeTab_ (runFrame report e) = WeakTo b).
Proof.
  split.
  - intros p Hp. by rewrite runFrame_activeTab, Hp.
  - intros a b c A B C Htabs Hb Ha Hc.
    rewrite runFrame_activeTab. unfold tab_ptrs. rewrite Htabs. cbn [map fst].
    assert (Hna : ¬ claims_focus report a).
    { unfold claims_focus. rewrite Ha, !andb_false_r. simpl. tauto. }
    assert (Hnc : ¬ claims_focus report c).
    { unfold claims_focus. rewrite Hc, !andb_false_r. simpl. tauto. }
    rewrite (filter_cons_False _ a) by done.
    rewrite (filter_cons_True _ b) by (by rewrite Hb).
    rewrite (filter_cons_False _ c) by done.
    by rewrite filter_nil.
Qed.

Lemma runFrame_last_focused_wins_witness :
  activeTab_ (runFrame all_focused two_scenes) = WeakTo 1
  ∧ activeTab_
      (runFrame (λ p, mkPanelReport true true (bool_decide (p = 1%nat)))
         (CreateNewScene demo_env None two_scenes).1) = WeakTo 1.
Proof.
  split.
  - apply (proj1 (runFrame_last_focused_wins all_focused two_scenes) 1%nat).
    vm_compute. reflexivity.
  - eapply (proj2 (runFrame_last_focused_wins _ _) 0%nat 1%nat 2%nat).
    + vm_compute. reflexivity.
    + reflexivity.
    + reflexivity.
    + reflexivity.
Defined.

(** ** Saving and loading a project *)

Lemma tab_ids_blocks e : tab_ids e = map el_id (tab_blocks e).
Proof.
  unfold tab_ids, tab_blocks. rewrite map_map. done.
Qed.


Section Persistence.
Context (env : Env).

(** What [LoadProject] does once the document and its root are at hand. *)
Lemma LoadProject_found filePath e xml root :
  filePath ≠ "" → OpenXML env filePath e = Some xml → GetRoot xml = Some root →
  LoadProject env filePath e
  = LoadDock (r_docks root)
      (restore_all env (default [] (r_scenes root))
         (set_sceneTabs []
            (match r_window root with
             | Some w => set_window w (set_idPool ∅ e)
             | None => set_idPool ∅ e
             end))).
Proof.
  intros Hne Hxml Hroot. unfold LoadProject.
  rewrite bool_decide_eq_false_2 by done. rewrite Hxml, Hroot.
  unfold IDPool.Clear, restore_all.
  by destruct (r_window root), (r_scenes root).
Qed.

Lemma LoadProject_found_spec filePath e xml root :
  filePath ≠ "" → OpenXML env filePath e = Some xml → GetRoot xml = Some root →
  let e' := LoadProject env filePath e in
  tab_blocks e' = restored ∅ (default [] (r_scenes root))
  ∧ log_ e' = log_ e ++ conflicts ∅ (default [] (r_scenes root))
  ∧ Forall title_derived (sceneTabs_ e')
  ∧ window_ e' = default (window_ e) (r_window root)
  ∧ docks_ e' = default (docks_ e) (r_docks root).
Proof.
  intros Hne Hxml Hroot. cbn zeta.
  rewrite (LoadProject_found _ _ _ _ Hne Hxml Hroot).
  match goal with |- context [restore_all env ?s ?e0] =>
    destruct (restore_all_spec env s e0) as (H1 & H2 & H3 & H4 & H5 & H6 & H7 & H8)
  end.
  assert (Hdock : ∀ d e0, tab_blocks (LoadDock d e0) = tab_blocks e0
                        ∧ log_ (LoadDock d e0) = log_ e0
                        ∧ sceneTabs_ (LoadDock d e0) = sceneTabs_ e0
                        ∧ window_ (LoadDock d e0) = window_ e0
                        ∧ docks_ (LoadDock d e0) = default (docks_ e0) d).
  { by intros [d|] e0. }
  match goal with |- context [LoadDock ?d ?e0] =>
    destruct (Hdock d e0) as (D1 & D2 & D3 & D4 & D5)
  end.
  rewrite D1, D2, D3, D4, D5, H1, H2, H4, H5.
  repeat split.
  - by destruct (r_window root).
  - by destruct (r_window root).
  - apply H3. constructor.
  - by destruct (r_window root).
  - by destruct (r_window root).
Qed.

End Persistence.



(** C4.  Creating a scene from a block whose identifier is already held
    fails: it returns null, leaves [sceneTabs_] as it was and reports the
    conflict.  A load whose document has two blocks with one identifier (the
    other identifiers pairwise different) restores every block but the second
    of the two, in document order, and reports exactly that one conflict. *)
Theorem LoadProject_duplicate_identifier env :
  (∀ b e, el_id b ∈ idPool_ e →
          (CreateNewScene env (Some b) e).2 = None
          ∧ sceneTabs_ (CreateNewScene env (Some b) e).1 = sceneTabs_ e
          ∧ log_ (CreateNewScene env (Some b) e).1
            = log_ e ++ [LogError_IdTaken (el_id b)])
  ∧ (∀ path e xml root pre b1 mid b2 post,
       path ≠ "" →
       OpenXML env path e = Some xml →
       GetRoot xml = Some root →
       r_scenes root = Some (pre ++ b1 :: mid ++ b2 :: post) →
       el_id b2 = el_id b1 →
       NoDup (map el_id (pre ++ b1 :: mid ++ post)) →
       tab_blocks (LoadProject env path e) = pre ++ b1 :: mid ++ post
       ∧ log_ (LoadProject env path e) = log_ e ++ [LogError_IdTaken (el_id b2)]).
Proof.
  split.
  - intros b e Hin. by rewrite CreateNewScene_conflict.
  - intros path e xml root pre b1 mid b2 post Hne Hxml Hroot Hscenes Hid Hnd.
    destruct (LoadProject_found_spec env path e xml root Hne Hxml Hroot)
      as (Hblocks & Hlog & _).
    rewrite Hblocks, Hlog, Hscenes. cbn [default from_option id].
    replace (pre ++ b1 :: mid ++ b2 :: post)
      with ((pre ++ b1 :: mid) ++ b2 :: post) by by rewrite <- app_assoc.
    replace (pre ++ b1 :: mid ++ post)
      with ((pre ++ b1 :: mid) ++ post) in * by by rewrite <- app_assoc.
    set (l1 := pre ++ b1 :: mid) in *.
    rewrite map_app in Hnd. apply NoDup_app in Hnd as (Hnd1 & Hdisj & Hnd2).
    destruct (restored_app ∅ l1 (b2 :: post)) as [-> ->].
    destruct (restored_fresh ∅ l1 Hnd1) as [-> ->].
    { intros b _. apply not_elem_of_empty. }
    assert (Hin : el_id b2 ∈ (list_to_set (map el_id l1) ∪ ∅ : gset N)).
    { rewrite elem_of_union, elem_of_list_to_set, Hid. left.
      apply list_elem_of_fmap. exists b1. split; [done|].
      unfold l1. rewrite elem_of_app, elem_of_cons. tauto. }
    cbn [restored conflicts]. rewrite !bool_decide_eq_true_2 by done.
    destruct (restored_fresh (list_to_set (map el_id l1) ∪ ∅) post Hnd2) as [-> ->].
    { intros b Hb. rewrite elem_of_union, elem_of_list_to_set, elem_of_empty.
      intros [Hin'|[]]. apply (Hdisj (el_id b)); [done|].
      apply list_elem_of_fmap. by exists b. }
    done.
Qed.

Lemma LoadProject_duplicate_identifier_witness :
  let a := mkSceneEl 5 "A" "a.xml" "" in
  let b := mkSceneEl 5 "B" "b.xml" "" in
  let c := mkSceneEl 6 "C" "c.xml" "" in
  let doc := mkXMLFile (Some (mkXMLRoot "0" None (Some [a; b; c]) None)) in
  let e := LoadProject demo_env "/dup.xml" (Editor_new {["/dup.xml" := doc]}) in
  tab_blocks e = [a; c] ∧ log_ e = [LogError_IdTaken 5].
Proof.
  intros a b c doc e.
  apply (proj2 (LoadProject_duplicate_identifier demo_env) "/dup.xml"
           (Editor_new {["/dup.xml" := doc]}) doc
           (mkXMLRoot "0" None (Some [a; b; c]) None) [] a [] b [c]).
  - done.
  - reflexivity.
  - reflexivity.
  - reflexivity.
  - reflexivity.
  - vm_compute. repeat constructor; rewrite ?elem_of_cons, ?elem_of_nil;
      intuition discriminate.
Defined.



(** ** The save action *)

Lemma save_scenes_log (tabs : list (ptr * SceneTab)) (e : Editor) :
  let e' := foldl (λ acc st, emit (Call_SaveScene st.1) acc) e tabs in
  log_ e' = log_ e ++ map Call_SaveScene (map fst tabs)
  ∧ sceneTabs_ e' = sceneTabs_ e ∧ activeTab_ e' = activeTab_ e
  ∧ idPool_ e' = idPool_ e ∧ disk_ e' = disk_ e.
Proof.
  revert e. induction tabs as [|st tabs IH]; intros e; cbn zeta; simpl.
  - by rewrite app_nil_r.
  - destruct (IH (emit (Call_SaveScene st.1) e)) as (H1 & H2 & H3 & H4 & H5).
    rewrite H1, H2, H3, H4, H5. simpl. by rewrite <- app_assoc.
Qed.

Lemma SaveProject_log env path e :
  sceneTabs_ (SaveProject env path e) = sceneTabs_ e
  ∧ activeTab_ (SaveProject env path e) = activeTab_ e
  ∧ idPool_ (SaveProject env path e) = idPool_ e
  ∧ ∃ io, log_ (SaveProject env path e) = log_ e ++ io
          ∧ ∀ p, Call_SaveScene p ∉ io.
Proof.
  unfold SaveProject. case_bool_decide.
  - repeat split; try done. exists []. rewrite app_nil_r. split; [done|].
    intros p. apply not_elem_of_nil.
  - destruct (SaveFile_ok env path); repeat split; try done.
    + exists [Io_SaveFile path true]. split; [done|].
      intros p. rewrite elem_of_cons, elem_of_nil. intuition discriminate.
    + exists [Io_SaveFile path false; LogError_SaveFailed path]. split.
      * simpl. by rewrite <- app_assoc.
      * intros p. rewrite !elem_of_cons, elem_of_nil. intuition discriminate.
Qed.

(** C6, as stated, fails: with two scenes open, the first active, the
    toolbar save button also saves the scene of the second tab. *)
Lemma save_reaches_inactive_tab :
  ¬ saves_only_active demo_env toolbar_save two_scenes_first_active.
Proof.
  intros H.
  destruct (RenderMenuBar demo_env toolbar_save two_scenes_first_active)
    as [e'|] eqn:He; [|vm_compute in He; discriminate He].
  pose proof (H e' 1%nat He) as H1.
  vm_compute in He. injection He as <-. cbn [log_ activeTab_] in H1.
  assert (Hactive : WeakTo 0 = WeakTo 1).
  { apply H1. do 4 apply list_elem_of_further. apply list_elem_of_here. }
  discriminate Hactive.
Qed.

Lemma WithActive_live f e :
  Expired (activeTab_ e) (sceneTabs_ e) = false →
  ∃ p t, activeTab_ e = WeakTo p ∧ find_tab p (sceneTabs_ e) = Some t
         ∧ WithActive f e = Ok (f p t e).
Proof.
  unfold Expired, WithActive, Arrow, Get.
  destruct (activeTab_ e) as [|p]; simpl; [intros [=]|].
  destruct (find_tab p (sceneTabs_ e)) as [t|] eqn:Hfind; simpl; [|intros [=]].
  intros _. exists p, t. split; [reflexivity|split; [exact Hfind|reflexivity]].
Qed.

Lemma save_scenes_projectFilePath (tabs : list (ptr * SceneTab)) e :
  projectFilePath_ (foldl (λ acc st, emit (Call_SaveScene st.1) acc) e tabs)
  = projectFilePath_ e.
Proof.
  revert e. induction tabs as [|st tabs IH]; intros e; [done|].
  cbn [foldl]. by rewrite IH.
Qed.

Lemma SaveProject_fields env path e :
  disk_ (SaveProject env path e)
  = (if bool_decide (path = "") then disk_ e
     else if SaveFile_ok env path then <[path := project_document e]> (disk_ e)
          else disk_ e)
  ∧ log_ (SaveProject env path e)
    = log_ e ++ (if bool_decide (path = "") then []
                 else if SaveFile_ok env path then [Io_SaveFile path true]
                      else [Io_SaveFile path false; LogError_SaveFailed path])
  ∧ projectFilePath_ (SaveProject env path e) = projectFilePath_ e
  ∧ sceneTabs_ (SaveProject env path e) = sceneTabs_ e.
Proof.
  unfold SaveProject. case_bool_decide.
  - by rewrite app_nil_r.
  - destruct (SaveFile_ok env path); cbn [disk_ log_ projectFilePath_ sceneTabs_
      emit set_disk]; repeat split; try done.
    by rewrite <- app_assoc.
Qed.

(** C6, as corrected.  Whenever the save action fires, from the File menu or
    from the toolbar, [SaveProject] runs on the project path, which is the
    answer of the save dialog when none was set: a path that is not empty
    gets the project document written to it (a failed write is logged), an
    empty one gets nothing written.  Then [SaveScene] is called on every tab
    of the registry, in registry order, whether active or not.  The toolbar
    button counts only while the active tab is alive. *)
Theorem RenderMenuBar_saves_every_scene env ui e :
  (∀ e1, RenderMenuBar_items env ui e = Ok (true, e1) →
     let path := if bool_decide (projectFilePath_ e1 = "")
                 then saveFileDialog ui else projectFilePath_ e1 in
     ∃ e2, RenderMenuBar env ui e = Ok e2
       ∧ projectFilePath_ e2 = path
       ∧ sceneTabs_ e2 = sceneTabs_ e1
       ∧ disk_ e2 = disk_ (SaveProject env path e1)
       ∧ log_ e2 = log_ (SaveProject env path e1) ++ map Call_SaveScene (tab_ptrs e1)
       ∧ (path ≠ "" → SaveFile_ok env path = true →
            disk_ e2 = <[path := project_document e1]> (disk_ e1)
            ∧ log_ e2 = log_ e1 ++ Io_SaveFile path true
                                   :: map Call_SaveScene (tab_ptrs e1))
       ∧ (path ≠ "" → SaveFile_ok env path = false →
            log_ e2 = log_ e1 ++ Io_SaveFile path false :: LogError_SaveFailed path
                                   :: map Call_SaveScene (tab_ptrs e1))
       ∧ (path = "" →
            disk_ e2 = disk_ e1
            ∧ log_ e2 = log_ e1 ++ map Call_SaveScene (tab_ptrs e1)))
  ∧ (∀ e1, BeginMenu_File ui = false →
       RenderMenuBar_items env ui e = Ok (true, e1) →
       Expired (activeTab_ e) (sceneTabs_ e) = false ∧ ToolbarButton_Save ui = true).
Proof.
  split.
  - intros e1 Hitems path. unfold RenderMenuBar. rewrite Hitems.
    cbn [mbind Result_bind]. unfold RenderMenuBar_save.
    set (e1' := if bool_decide (projectFilePath_ e1 = "")
                then set_projectFilePath (saveFileDialog ui) e1 else e1).
    assert (He1 : projectFilePath_ e1' = path ∧ sceneTabs_ e1' = sceneTabs_ e1
                  ∧ log_ e1' = log_ e1 ∧ disk_ e1' = disk_ e1
                  ∧ project_document e1' = project_document e1).
    { unfold e1', path. by case_bool_decide. }
    destruct He1 as (Hp1 & Ht1 & Hl1 & Hd1 & Hdoc1). rewrite Hp1.
    destruct (SaveProject_fields env path e1') as (Hd2 & Hl2 & Hp2 & Ht2).
    destruct (SaveProject_fields env path e1) as (Hd2' & Hl2' & _ & _).
    destruct (save_scenes_log (sceneTabs_ (SaveProject env path e1'))
                (SaveProject env path e1')) as (Hl3 & Ht3 & _ & _ & Hd3).
    pose proof (save_scenes_projectFilePath (sceneTabs_ (SaveProject env path e1'))
                  (SaveProject env path e1')) as Hp3.
    eexists. split; [reflexivity|].
    rewrite Hp3, Ht3, Hd3, Hl3, Hp2, Ht2, Hd2, Hl2, Hd2', Hl2', Hp1, Ht1, Hl1, Hd1, Hdoc1.
    fold (tab_ptrs e1).
    split; [done|]. split; [done|]. split; [done|]. split; [done|].
    split; [|split].
    + intros Hne Hok. rewrite bool_decide_eq_false_2, Hok by done.
      split; [done|]. by rewrite <- app_assoc.
    + intros Hne Hok. rewrite bool_decide_eq_false_2, Hok by done.
      by rewrite <- app_assoc.
    + intros Hempty. rewrite bool_decide_eq_true_2 by done.
      by rewrite app_nil_r.
  - intros e1 Hfile. unfold RenderMenuBar_items. rewrite Hfile.
    destruct (BeginMainMenuBar ui); [|done].
    destruct (Expired (activeTab_ e) (sceneTabs_ e)) eqn:Hexp; cbn [negb]; [done|].
    destruct (WithActive_live
                (λ p _ e, emit Send_EditorToolbarButtons (emit (Call_RenderGizmoButtons p) e))
                e Hexp) as (p & t & _ & _ & ->).
    cbn [mbind Result_bind orb]. intros [= -> _]. done.
Qed.

Lemma RenderMenuBar_saves_every_scene_witness :
  ∃ e2,
    RenderMenuBar demo_env toolbar_save two_scenes_first_active = Ok e2
    ∧ sceneTabs_ e2 = sceneTabs_ two_scenes_first_active
    ∧ disk_ e2 !! "/project.xml" = Some (project_document two_scenes_first_active)
    ∧ log_ e2 = [Call_RenderGizmoButtons 0; Send_EditorToolbarButtons;
                 Io_SaveFile "/project.xml" true; Call_SaveScene 0; Call_SaveScene 1].
Proof.
  destruct (proj1 (RenderMenuBar_saves_every_scene demo_env toolbar_save
                     two_scenes_first_active)
              (emit Send_EditorToolbarButtons
                 (emit (Call_RenderGizmoButtons 0) two_scenes_first_active)))
    as (e2 & Hrun & _ & Htabs & _ & _ & Hok & _).
  { vm_compute. reflexivity. }
  destruct Hok as [Hdisk Hlog]; [done|reflexivity|].
  exists e2. split; [exact Hrun|]. split; [exact Htabs|]. split.
  - rewrite Hdisk. apply lookup_insert_eq.
  - rewrite Hlog. reflexivity.
Defined.

(** C7.  [LoadProject] on an empty path, or on a path for which neither the
    resource cache nor the file system yields a document, returns with the
    whole state as it was: pool, registry, active tab, window, dock layout,
    files and trace. *)
Theorem LoadProject_missing_file env path e :
  path = ""
  ∨ ((IsAbsolutePath env path = true ∨ GetResource env path = None)
     ∧ disk_ e !! path = None) →
  LoadProject env path e = e.
Proof.
  intros [-> | [Hres Hdisk]]; unfold LoadProject.
  - done.
  - case_bool_decide; [done|].
    unfold OpenXML. rewrite Hdisk.
    by destruct Hres as [-> | ->]; [|destruct (IsAbsolutePath env path)].
Qed.

Lemma LoadProject_missing_file_witness :
  LoadProject demo_env "" two_scenes = two_scenes
  ∧ LoadProject demo_env "Etc/DefaultEditorProject.xml" two_scenes = two_scenes.
Proof.
  split.
  - apply LoadProject_missing_file. by left.
  - apply LoadProject_missing_file. right. split; [by right|].
    apply lookup_empty.
Defined.

(** C8.  [SaveProject] on an empty path returns the state it was given:
    no file is written, nothing is added to the trace, and the registry, the
    pool and every tab are as before. *)
Theorem SaveProject_empty_path env e : SaveProject env "" e = e.
Proof. reflexivity. Qed.

(** ** Start-up *)

Lemma LoadProject_no_root env path e :
  OpenXML env path e = None
  ∨ (∃ xml, OpenXML env path e = Some xml ∧ GetRoot xml = None) →
  LoadProject env path e = e.
Proof.
  unfold LoadProject. case_bool_decide; [done|].
  intros [-> | (xml & -> & ->)]; done.
Qed.

Lemma tab_blocks_nil e : tab_blocks e = [] ↔ sceneTabs_ e = [].
Proof.
  unfold tab_blocks. destruct (sceneTabs_ e); simpl; split; done.
Qed.

Lemma Start_fault env e :
  Start env e = Fault ↔ sceneTabs_ (LoadProject env DefaultEditorProject e) = [].
Proof.
  unfold Start.
  destruct (sceneTabs_ (LoadProject env DefaultEditorProject e)) as [|[p t] rest];
    split; done.
Qed.

(** C9.  [Start] takes the front of [sceneTabs_] right after loading the
    default project.  Starting with no tabs, it faults when no project file
    is found; it goes through exactly when the load restored a tab, and
    then the file was found, had a root and a scene block that was
    restored. *)
Theorem Start_needs_a_restored_scene env e :
  sceneTabs_ e = [] →
  (OpenXML env DefaultEditorProject e = None → Start env e = Fault)
  ∧ (Start env e ≠ Fault ↔ sceneTabs_ (LoadProject env DefaultEditorProject e) ≠ [])
  ∧ (Start env e ≠ Fault →
       ∃ xml root scenes,
         OpenXML env DefaultEditorProject e = Some xml
         ∧ GetRoot xml = Some root
         ∧ r_scenes root = Some scenes
         ∧ restored ∅ scenes ≠ []).
Proof.
  intros Hempty. split; [|split].
  - intros Hnone. apply Start_fault. rewrite LoadProject_no_root; [done|by left].
  - by rewrite Start_fault.
  - rewrite Start_fault. intros Htabs.
    destruct (OpenXML env DefaultEditorProject e) as [xml|] eqn:Hxml.
    2:{ exfalso. apply Htabs. rewrite LoadProject_no_root; [done|by left]. }
    destruct (GetRoot xml) as [root|] eqn:Hroot.
    2:{ exfalso. apply Htabs. rewrite LoadProject_no_root; [done|].
        right. by exists xml. }
    assert (Hne : DefaultEditorProject ≠ "") by done.
    destruct (LoadProject_found_spec env _ e xml root Hne Hxml Hroot) as (Hb & _).
    destruct (r_scenes root) as [scenes|] eqn:Hscenes.
    + exists xml, root, scenes. repeat split; try done.
      intros Hnil. apply Htabs. apply tab_blocks_nil.
      by rewrite Hb.
    + exfalso. apply Htabs. apply tab_blocks_nil. by rewrite Hb.
Qed.

Lemma Start_needs_a_restored_scene_witness :
  Start demo_env (Editor_new ∅) = Fault.
Proof.
  apply (proj1 (Start_needs_a_restored_scene demo_env (Editor_new ∅) eq_refl)).
  reflexivity.
Defined.

(** ** Dereferences of the active tab *)

Lemma guarded_WithActive f e :
  ∃ e', (if negb (Expired (activeTab_ e) (sceneTabs_ e))
         then WithActive f e else Ok e) = Ok e'.
Proof.
  destruct (Expired (activeTab_ e) (sceneTabs_ e)) eqn:Hexp; cbn [negb].
  - by exists e.
  - destruct (WithActive_live f e Hexp) as (p & t & _ & _ & ->). by eexists.
Qed.

Lemma RenderMenuBar_items_no_fault env ui e :
  ∃ r, RenderMenuBar_items env ui e = Ok r.
Proof.
  unfold RenderMenuBar_items.
  destruct (BeginMainMenuBar ui); [|by eexists].
  match goal with |- context [let '(save, e) := ?x in _] => destruct x as [save e1] end.
  destruct (Expired (activeTab_ e1) (sceneTabs_ e1)) eqn:Hexp; cbn [negb].
  - by eexists.
  - destruct (WithActive_live
                (λ p _ e, emit Send_EditorToolbarButtons (emit (Call_RenderGizmoButtons p) e))
                e1 Hexp) as (p & t & _ & _ & ->).
    by eexists.
Qed.

Lemma RenderMenuBar_no_fault env ui e : ∃ e', RenderMenuBar env ui e = Ok e'.
Proof.
  unfold RenderMenuBar.
  destruct (RenderMenuBar_items_no_fault env ui e) as [[save e1] ->].
  cbn [mbind Result_bind]. destruct save; by eexists.
Qed.

Lemma CreateNewScene_None_returns env e :
  (CreateNewScene env None e).2 = Some (heapTop_ e).
Proof.
  unfold CreateNewScene, IDPool.NewID. simpl. by destruct (last (sceneTabs_ e)).
Qed.

(** The hierarchy panel, the inspector panel and the toolbar test
    [Expired()] before they go through [activeTab_]: a frame never
    dereferences a dead tab. *)
Lemma OnUpdate_no_fault env ui e : ∃ e', OnUpdate env ui e = Ok e'.
Proof.
  unfold OnUpdate.
  destruct (RenderMenuBar_no_fault env (menu ui) e) as [e1 ->].
  cbn [mbind Result_bind].
  assert (H1 : ∃ e2, (if BeginDock_Hierarchy ui
                      then if negb (Expired (activeTab_ e1) (sceneTabs_ e1))
                           then WithActive (λ p _ e, emit (Call_RenderSceneNodeTree p) e) e1
                           else Ok e1
                      else Ok e1) = Ok e2).
  { destruct (BeginDock_Hierarchy ui); [apply guarded_WithActive|by eexists]. }
  destruct H1 as [e2 ->]. cbn [mbind Result_bind].
  set (e3 := runFrame (host ui) e2).
  destruct (guarded_WithActive
              (λ _ t e, emit (Call_SetNextDockPos (GetUniqueTitle t)) e) e3) as [e4 ->].
  cbn [mbind Result_bind].
  assert (H5 : ∃ e5, (if BeginDock_Inspector ui
                      then if negb (Expired (activeTab_ e4) (sceneTabs_ e4))
                           then WithActive (λ p _ e, emit (Call_RenderInspector p) e) e4
                           else Ok e4
                      else Ok e4) = Ok e5).
  { destruct (BeginDock_Inspector ui); [apply guarded_WithActive|by eexists]. }
  destruct H5 as [e5 ->]. cbn [mbind Result_bind].
  destruct (last (sceneTabs_ e5)) as [back|]; cbn [mbind Result_bind];
    (destruct (ResourceBrowserWindow ui) as [selected|]; [|by eexists];
     destruct (IsSceneContent env selected); [|by eexists];
     match goal with |- context [CreateNewScene env None ?e0] =>
       pose proof (CreateNewScene_None_returns env e0) as Hp;
       destruct (CreateNewScene env None e0) as [e6 r]
     end; cbn [snd] in Hp; subst r; by eexists).
Qed.

Lemma IsActive_null_scene e : IsActive None e = Ok false.
Proof. reflexivity. Qed.

Lemma IsActive_null_handle scene e :
  activeTab_ e = WeakNull → IsActive scene e = Ok false.
Proof.
  intros Hnull. unfold IsActive. rewrite Hnull. cbn [Null].
  by rewrite orb_true_r.
Qed.

(** [IsActive] tests [Null()], not [Expired()]: with a handle that was
    assigned and whose tab has since been erased it goes through the handle. *)
Lemma IsActive_expired_handle scene e p :
  activeTab_ e = WeakTo p → find_tab p (sceneTabs_ e) = None →
  IsActive (Some scene) e = Fault.
Proof.
  intros Hact Hgone. unfold IsActive, Arrow, Get. rewrite Hact, Hgone.
  reflexivity.
Qed.

(** C10, at the failing input.  One scene is open and active; in the next
    frame its dock is dismissed.  The frame itself goes through (the panels
    are guarded by [Expired()]) and leaves [activeTab_] assigned but expired.
    [IsActive] with a scene that is not null then dereferences the expired
    handle instead of answering false. *)
Theorem IsActive_after_close_faults :
  ∃ e', OnUpdate demo_env closing_frame one_scene_active = Ok e'
        ∧ sceneTabs_ e' = []
        ∧ Null (activeTab_ e') = false
        ∧ Expired (activeTab_ e') (sceneTabs_ e') = true
        ∧ IsActive (Some 0%nat) e' = Fault.
Proof.
  eexists. split; [vm_compute; reflexivity|]. cbn [sceneTabs_ activeTab_].
  repeat split.
Qed.

(** ** No two open tabs share an identifier *)

Lemma ids_unique_ext e e' :
  tab_ids e' = tab_ids e → idPool_ e' = idPool_ e → ids_unique e → ids_unique e'.
Proof. unfold ids_unique. by intros -> ->. Qed.

Lemma ids_unique_emit ev e : ids_unique e → ids_unique (emit ev e).
Proof. by apply ids_unique_ext. Qed.

Lemma ids_unique_set_projectFilePath v e :
  ids_unique e → ids_unique (set_projectFilePath v e).
Proof. by apply ids_unique_ext. Qed.

Lemma ids_unique_snoc e p t :
  id_ t ∉ idPool_ e → ids_unique e →
  ∀ e', sceneTabs_ e' = sceneTabs_ e ++ [(p, t)] →
        idPool_ e' = {[id_ t]} ∪ idPool_ e → ids_unique e'.
Proof.
  intros Hfresh [Hnd Hsub] e' Htabs Hpool. unfold ids_unique, tab_ids in *.
  rewrite Htabs, Hpool, map_app. cbn [map snd]. split.
  - apply NoDup_app. split; [done|]. split; [|apply NoDup_singleton].
    intros id Hid. rewrite elem_of_cons, elem_of_nil. intros [->|[]].
    by apply Hfresh, Hsub.
  - intros id. rewrite elem_of_app, elem_of_cons, elem_of_nil, elem_of_union,
      elem_of_singleton.
    intros [Hid|[->|[]]]; [right; by apply Hsub|by left].
Qed.

Lemma CreateNewScene_new env e :
  ∃ t, CreateNewScene env None e
       = (set_sceneTabs (sceneTabs_ e ++ [(heapTop_ e, t)])
            (set_heapTop (S (heapTop_ e))
               (set_idPool ({[pick env (idPool_ e)]} ∪ idPool_ e) e)),
          Some (heapTop_ e))
       ∧ id_ t = pick env (idPool_ e).
Proof.
  unfold CreateNewScene, IDPool.NewID. simpl.
  destruct (last (sceneTabs_ e)); by eexists.
Qed.

Lemma ids_unique_CreateNewScene env project e :
  IDPool.pick_fresh (pick env) → ids_unique e →
  ids_unique (CreateNewScene env project e).1.
Proof.
  intros Hfresh Hinv. destruct project as [b|].
  - destruct (decide (el_id b ∈ idPool_ e)) as [Hin|Hin].
    + rewrite CreateNewScene_conflict by done. cbn [fst].
      by apply ids_unique_emit, (ids_unique_ext e).
    + destruct (CreateNewScene_restore env b e Hin) as (t & -> & Hb & _).
      cbn [fst]. assert (Hid : id_ t = el_id b) by by rewrite <- Hb.
      apply (ids_unique_snoc e (heapTop_ e) t); [by rewrite Hid|done|done|].
      by rewrite Hid.
  - destruct (CreateNewScene_new env e) as (t & -> & Hid). cbn [fst].
    apply (ids_unique_snoc e (heapTop_ e) t); [|done|done|by rewrite Hid].
    rewrite Hid. apply Hfresh.
Qed.

Lemma ids_unique_restore_all env scenes e :
  ids_unique e → ids_unique (restore_all env scenes e).
Proof.
  revert e. induction scenes as [|b scenes IH]; intros e Hinv; [done|].
  cbn [restore_all foldl]. apply IH.
  destruct (decide (el_id b ∈ idPool_ e)) as [Hin|Hin].
  - rewrite CreateNewScene_conflict by done. cbn [fst].
    by apply ids_unique_emit, (ids_unique_ext e).
  - destruct (CreateNewScene_restore env b e Hin) as (t & -> & Hb & _).
    cbn [fst]. assert (Hid : id_ t = el_id b) by by rewrite <- Hb.
    apply (ids_unique_snoc e (heapTop_ e) t); [by rewrite Hid|done|done|].
    by rewrite Hid.
Qed.

Lemma ids_unique_LoadProject env path e :
  ids_unique e → ids_unique (LoadProject env path e).
Proof.
  intros Hinv. destruct (decide (path = "")) as [->|Hne]; [done|].
  destruct (OpenXML env path e) as [xml|] eqn:Hxml.
  2:{ rewrite LoadProject_no_root; [done|by left]. }
  destruct (GetRoot xml) as [root|] eqn:Hroot.
  2:{ rewrite LoadProject_no_root; [done|]. right. by exists xml. }
  rewrite (LoadProject_found env path e xml root Hne Hxml Hroot).
  assert (Hdock : ∀ d e0, ids_unique e0 → ids_unique (LoadDock d e0)).
  { intros [d|] e0; [|done]. by apply ids_unique_ext. }
  apply Hdock, ids_unique_restore_all.
  split.
  - unfold tab_ids. cbn [sceneTabs_ set_sceneTabs map]. constructor.
  - unfold tab_ids. cbn [sceneTabs_ set_sceneTabs map]. intros id Hid.
    by apply elem_of_nil in Hid.
Qed.

Lemma ids_unique_SaveProject env path e :
  ids_unique e → ids_unique (SaveProject env path e).
Proof.
  destruct (SaveProject_log env path e) as (Ht & _ & Hp & _).
  apply ids_unique_ext; [|done]. unfold tab_ids. by rewrite Ht.
Qed.

Lemma ids_unique_save_scenes (tabs : list (ptr * SceneTab)) e :
  ids_unique e →
  ids_unique (foldl (λ acc st, emit (Call_SaveScene st.1) acc) e tabs).
Proof.
  destruct (save_scenes_log tabs e) as (_ & Ht & _ & Hp & _).
  apply ids_unique_ext; [|done]. unfold tab_ids. by rewrite Ht.
Qed.

#[global] Hint Resolve ids_unique_emit ids_unique_set_projectFilePath
  ids_unique_CreateNewScene ids_unique_LoadProject ids_unique_SaveProject
  ids_unique_save_scenes : ids.

Lemma kept_removed_ids (report : ptr → PanelReport) (tabs : list (ptr * SceneTab)) :
  NoDup (map (λ st, id_ st.2) tabs) →
  NoDup (map (λ st, id_ st.2) (filter (λ st, open (report st.1)) tabs))
  ∧ ∀ id, id ∈ map (λ st, id_ st.2) (filter (λ st, open (report st.1)) tabs) →
          id ∈ map (λ st, id_ st.2) tabs
          ∧ id ∉ map (λ st, id_ st.2) (filter (λ st, ¬ open (report st.1)) tabs).
Proof.
  induction tabs as [|[p t] tabs IH]; intros Hnd.
  - split; [constructor|]. intros id Hid. by apply elem_of_nil in Hid.
  - cbn [map snd] in Hnd. inversion Hnd as [|? ? Hnotin Hnd']; subst.
    destruct (IH Hnd') as [IH1 IH2].
    rewrite !filter_cons. cbn [fst].
    destruct (open (report p)) eqn:Ho.
    + rewrite decide_True, decide_False by (simpl; tauto).
      cbn [map snd]. split.
      * constructor; [|done]. intros Hin. by apply IH2 in Hin as [Hin _].
      * intros id. rewrite !elem_of_cons. intros [->|Hid].
        -- split; [by left|]. intros Hin. apply Hnotin.
           apply list_elem_of_fmap in Hin as (st & -> & Hst).
           apply list_elem_of_filter in Hst as [_ Hst].
           apply list_elem_of_fmap. by exists st.
        -- destruct (IH2 id Hid). split; [by right|done].
    + rewrite decide_False, decide_True by (simpl; tauto).
      cbn [map snd]. split; [done|].
      intros id Hid. destruct (IH2 id Hid) as [Hin Hout].
      rewrite !elem_of_cons. split; [by right|].
      intros [->|Hrem]; [done|by apply Hout].
Qed.

Lemma ids_unique_runFrame report e : ids_unique e → ids_unique (runFrame report e).
Proof.
  intros [Hnd Hsub]. unfold ids_unique, tab_ids in *.
  rewrite runFrame_unfold. cbn [sceneTabs_ idPool_ set_idPool set_activeTab set_sceneTabs].
  rewrite OnUpdate_sceneTabs_kept, OnUpdate_sceneTabs_pool, map_map.
  cbn [snd RenderWindow fst id_].
  destruct (kept_removed_ids report (sceneTabs_ e) Hnd) as [Hkept Hsplit].
  split; [done|].
  intros id Hid. destruct (Hsplit id Hid) as [Hin Hout].
  rewrite elem_of_difference, elem_of_list_to_set. split; [by apply Hsub|done].
Qed.

#[global] Hint Resolve ids_unique_runFrame : ids.

Lemma ids_unique_guarded f e e' :
  (∀ p t e0, ids_unique e0 → ids_unique (f p t e0)) →
  (if negb (Expired (activeTab_ e) (sceneTabs_ e)) then WithActive f e else Ok e) = Ok e' →
  ids_unique e → ids_unique e'.
Proof.
  intros Hf. destruct (Expired (activeTab_ e) (sceneTabs_ e)) eqn:Hexp; cbn [negb].
  - by intros [= <-].
  - destruct (WithActive_live f e Hexp) as (p & t & _ & _ & ->).
    intros [= <-]. apply Hf.
Qed.

Lemma ids_unique_RenderMenuBar env ui e e' :
  IDPool.pick_fresh (pick env) →
  RenderMenuBar env ui e = Ok e' → ids_unique e → ids_unique e'.
Proof.
  intros Hfresh Hrun Hinv. unfold RenderMenuBar in Hrun.
  destruct (RenderMenuBar_items env ui e) as [[save e1]|] eqn:Hitems; [|done].
  cbn [mbind Result_bind] in Hrun.
  assert (Hinv1 : ids_unique e1).
  { unfold RenderMenuBar_items in Hitems.
    destruct (BeginMainMenuBar ui); [|by injection Hitems as _ <-].
    match type of Hitems with
    | context [let '(s, e) := ?x in _] =>
        assert (Hx : ids_unique x.2);
        [|destruct x as [save0 e0]; cbn [snd] in Hx]
    end.
    { destruct (BeginMenu_File ui); [|done].
      destruct (MenuItem_SaveProjectAs ui), (MenuItem_OpenProject ui),
        (MenuItem_NewScene ui), (MenuItem_Exit ui); cbn [snd];
        eauto 10 with ids. }
    destruct (Expired (activeTab_ e0) (sceneTabs_ e0)) eqn:Hexp; cbn [negb] in Hitems.
    - by injection Hitems as _ <-.
    - destruct (WithActive_live
        (λ p _ e, emit Send_EditorToolbarButtons (emit (Call_RenderGizmoButtons p) e))
        e0 Hexp) as (p & t & _ & _ & Hw).
      rewrite Hw in Hitems. cbn [mbind Result_bind] in Hitems.
      injection Hitems as _ <-. eauto with ids. }
  destruct save; injection Hrun as <-; [|done].
  unfold RenderMenuBar_save. case_bool_decide; eauto 10 with ids.
Qed.

Lemma tab_ids_modify_tab p f tabs :
  (∀ t, id_ (f t) = id_ t) →
  map (λ st, id_ st.2) (modify_tab p f tabs) = map (λ st, id_ st.2) tabs.
Proof.
  intros Hf. unfold modify_tab. rewrite map_map. apply map_ext.
  intros [q t]. case_bool_decide; cbn [snd]; by rewrite ?Hf.
Qed.

Lemma ids_unique_OnUpdate env ui e e' :
  IDPool.pick_fresh (pick env) →
  OnUpdate env ui e = Ok e' → ids_unique e → ids_unique e'.
Proof.
  intros Hfresh Hrun Hinv. unfold OnUpdate in Hrun.
  destruct (RenderMenuBar env (menu ui) e) as [e1|] eqn:Hmenu; [|done].
  apply (ids_unique_RenderMenuBar env _ _ _ Hfresh Hmenu) in Hinv.
  cbn [mbind Result_bind] in Hrun.
  match type of Hrun with
  | context [mbind _ ?x] =>
      destruct x as [e2|] eqn:H2; [|done]
  end.
  assert (Hinv2 : ids_unique e2).
  { destruct (BeginDock_Hierarchy ui); [|by injection H2 as <-].
    eapply ids_unique_guarded; [|exact H2|done]. intros; eauto with ids. }
  cbn [mbind Result_bind] in Hrun.
  assert (Hinv3 := ids_unique_runFrame (host ui) e2 Hinv2).
  set (e3 := runFrame (host ui) e2) in *.
  match type of Hrun with
  | context [mbind _ ?x] =>
      destruct x as [e4|] eqn:H4; [|done]
  end.
  assert (Hinv4 : ids_unique e4).
  { eapply ids_unique_guarded; [|exact H4|done]. intros; eauto with ids. }
  cbn [mbind Result_bind] in Hrun.
  match type of Hrun with
  | context [mbind _ ?x] =>
      destruct x as [e5|] eqn:H5; [|done]
  end.
  assert (Hinv5 : ids_unique e5).
  { destruct (BeginDock_Inspector ui); [|by injection H5 as <-].
    eapply ids_unique_guarded; [|exact H5|done]. intros; eauto with ids. }
  cbn [mbind Result_bind] in Hrun.
  match type of Hrun with
  | context [mbind _ ?x] =>
      destruct x as [e6|] eqn:H6; [|done]
  end.
  assert (Hinv6 : ids_unique e6).
  { destruct (last (sceneTabs_ e5)); injection H6 as <-; eauto with ids. }
  cbn [mbind Result_bind] in Hrun.
  destruct (ResourceBrowserWindow ui) as [selected|]; [|by injection Hrun as <-].
  destruct (IsSceneContent env selected); [|by injection Hrun as <-].
  pose proof (ids_unique_CreateNewScene env None e6 Hfresh Hinv6) as Hinv7.
  destruct (CreateNewScene env None e6) as [e7 [p|]]; [|done].
  cbn [fst] in Hinv7. injection Hrun as <-.
  apply ids_unique_emit. revert Hinv7. apply ids_unique_ext; [|done].
  unfold tab_ids. cbn [sceneTabs_ set_sceneTabs].
  apply tab_ids_modify_tab. intros t. unfold LoadScene.
  by destruct (LoadScene_ok env selected).
Qed.

Lemma ids_unique_Start env e e' :
  Start env e = Ok e' → ids_unique e → ids_unique e'.
Proof.
  unfold Start. intros Hrun Hinv.
  apply (ids_unique_LoadProject env DefaultEditorProject) in Hinv.
  destruct (sceneTabs_ (LoadProject env DefaultEditorProject e))
    as [|[p front] rest] eqn:Htabs; [done|].
  injection Hrun as <-. revert Hinv. apply ids_unique_ext; [|done].
  unfold tab_ids. cbn [sceneTabs_ set_sceneTabs]. by rewrite Htabs.
Qed.

Lemma reachable_ids_unique env e :
  IDPool.pick_fresh (pick env) → reachable env e → ids_unique e.
Proof.
  intros Hfresh. induction 1 as [disk | e e' _ IH Hrun | ui e e' _ IH Hrun
                                 | e _ IH | path e _ IH | path e _ IH
                                 | project e _ IH].
  - split; [constructor|]. intros id Hid. by apply elem_of_nil in Hid.
  - by apply (ids_unique_Start env e).
  - by apply (ids_unique_OnUpdate env ui e).
  - by apply ids_unique_SaveProject.
  - by apply ids_unique_LoadProject.
  - by apply ids_unique_SaveProject.
  - by apply ids_unique_CreateNewScene.
Qed.

(** C2.  With an allocation scheme that never picks a held identifier:
    whatever sequence of [NewID], [TakeID], reclaim (and [Clear]) calls a
    client makes on the pool, the identifiers it holds at that instant are
    pairwise different and are exactly the ones the pool records; and in
    every state the editor can reach, the identifiers of the open tabs are
    pairwise different and held by the pool. *)
Theorem identifiers_unique env :
  IDPool.pick_fresh (pick env) →
  (∀ ops, NoDup (IDPool.run (pick env) ops).2
          ∧ ∀ id, id ∈ (IDPool.run (pick env) ops).2
                  ↔ id ∈ (IDPool.run (pick env) ops).1)
  ∧ (∀ e, reachable env e →
          NoDup (tab_ids e) ∧ ∀ id, id ∈ tab_ids e → id ∈ idPool_ e).
Proof.
  intros Hfresh. split.
  - intros ops. by apply pool_inv_run.
  - intros e He. by apply (reachable_ids_unique env).
Qed.

Lemma identifiers_unique_witness :
  NoDup (IDPool.run (pick demo_env)
           [IDPool.OpNewID; IDPool.OpTakeID 7; IDPool.OpTakeID 7; IDPool.OpNewID;
            IDPool.OpReclaim 0; IDPool.OpNewID]).2
  ∧ NoDup (tab_ids two_scenes).
Proof.
  assert (Hfresh : IDPool.pick_fresh (pick demo_env)).
  { intros pool. apply is_fresh. }
  destruct (identifiers_unique demo_env Hfresh) as [Hpool Heditor].
  split.
  - apply Hpool.
  - apply Heditor. unfold two_scenes.
    apply (reach_CreateNewScene demo_env), (reach_CreateNewScene demo_env), reach_new.
Defined.

(** * Further properties of the editor *)

(** ** The active tab after a pass over the tabs *)

Lemma find_tab_elem_of p (tabs : list (ptr * SceneTab)) :
  p ∈ map fst tabs → is_Some (find_tab p tabs).
Proof.
  induction tabs as [|[q t] tabs IH]; cbn [map fst find_tab].
  - intros Hin. by apply elem_of_nil in Hin.
  - rewrite elem_of_cons. intros [->|Hin].
    + rewrite bool_decide_eq_true_2 by done. by eexists.
    + case_bool_decide; [by eexists|by apply IH].
Qed.

Lemma find_tab_kept (report : ptr → PanelReport) (tabs : list (ptr * SceneTab)) p :
  open (report p) = true →
  find_tab p (map (λ st, (st.1, (RenderWindow (report st.1) st.2).1))
                (filter (λ st, open (report st.1)) tabs))
  = (λ t, (RenderWindow (report p) t).1) <$> find_tab p tabs.
Proof.
  intros Hp. induction tabs as [|[q t] tabs IH]; [done|].
  rewrite filter_cons. cbn [fst find_tab].
  destruct (open (report q)) eqn:Hq.
  - rewrite decide_True by (simpl; tauto). cbn [map fst snd find_tab].
    case_bool_decide as Heq; [by subst q|done].
  - rewrite decide_False by (simpl; tauto).
    rewrite bool_decide_eq_false_2; [done|]. intros ->. congruence.
Qed.

Lemma runFrame_sceneTabs report e :
  sceneTabs_ (runFrame report e)
  = map (λ st, (st.1, (RenderWindow (report st.1) st.2).1))
      (filter (λ st, open (report st.1)) (sceneTabs_ e)).
Proof.
  rewrite runFrame_unfold. cbn [sceneTabs_ set_idPool set_activeTab set_sceneTabs].
  apply OnUpdate_sceneTabs_kept.
Qed.

Lemma runFrame_idPool report e :
  idPool_ (runFrame report e)
  = idPool_ e ∖ list_to_set
                  (map (λ st, id_ st.2)
                     (filter (λ st, ¬ open (report st.1)) (sceneTabs_ e))).
Proof.
  rewrite runFrame_unfold. cbn [idPool_ set_idPool].
  apply OnUpdate_sceneTabs_pool.
Qed.

Lemma filter_none_last (P : ptr → Prop) `{∀ p, Decision (P p)} (l : list ptr) :
  (∀ p, p ∈ l → ¬ P p) → filter P l = [].
Proof.
  induction l as [|q l IH]; intros Hall; [done|].
  rewrite filter_cons_False by (apply Hall; left).
  apply IH. intros p Hp. apply Hall. by right.
Qed.

(** X2.  When no open, drawn tab reports focus, the pass makes the last
    drawn tab active; when no tab is drawn either, [activeTab_] keeps the
    handle it had, whether that tab survived the pass or not. *)
Theorem runFrame_without_focus report e :
  (∀ p, p ∈ tab_ptrs e → claims_focus report p = false) →
  activeTab_ (runFrame report e)
  = match last (filter (λ q, is_drawn report q) (tab_ptrs e)) with
    | Some p => WeakTo p
    | None => activeTab_ e
    end.
Proof.
  intros Hnone. rewrite runFrame_activeTab.
  rewrite (filter_none_last (λ q, claims_focus report q)); [done|].
  intros p Hp. rewrite (Hnone p Hp). simpl. tauto.
Qed.

Lemma runFrame_without_focus_witness :
  activeTab_ (runFrame (λ _, mkPanelReport true true false) two_scenes) = WeakTo 1
  ∧ activeTab_ (runFrame all_closed one_scene_active) = WeakTo 0.
Proof.
  split.
  - rewrite runFrame_without_focus; [reflexivity|]. reflexivity.
  - rewrite runFrame_without_focus; [vm_compute; reflexivity|]. reflexivity.
Defined.

(** X3.  When at least one tab stays open and is drawn, the handle left by
    the pass points to a tab that is still in the registry and whose
    rendered flag is set; when some tab also reports focus, the active tab
    has its focus flag set. *)
Theorem runFrame_active_tab_alive report e :
  (∃ q, q ∈ tab_ptrs e ∧ is_drawn report q = true) →
  ∃ p t, activeTab_ (runFrame report e) = WeakTo p
         ∧ find_tab p (sceneTabs_ (runFrame report e)) = Some t
         ∧ Expired (activeTab_ (runFrame report e)) (sceneTabs_ (runFrame report e)) = false
         ∧ IsRendered t = true
         ∧ ((∃ q, q ∈ tab_ptrs e ∧ claims_focus report q = true) →
            SceneTab_IsActive t = true).
Proof.
  intros (q & Hq & Hdrawn).
  assert (Hkey : ∃ p, activeTab_ (runFrame report e) = WeakTo p
                      ∧ p ∈ tab_ptrs e ∧ is_drawn report p = true
                      ∧ ((∃ q, q ∈ tab_ptrs e ∧ claims_focus report q = true) →
                         claims_focus report p = true)).
  { rewrite runFrame_activeTab.
    destruct (last (filter (λ q, claims_focus report q) (tab_ptrs e))) as [p|] eqn:Hfa.
    - apply last_Some_elem_of, list_elem_of_filter in Hfa as [Hp Hin].
      apply Is_true_true in Hp. exists p. repeat split; try done.
      unfold claims_focus, is_drawn in *.
      by destruct (open (report p)), (visible (report p)).
    - apply last_None in Hfa.
      destruct (last (filter (λ q, is_drawn report q) (tab_ptrs e))) as [p|] eqn:Hd.
      + apply last_Some_elem_of, list_elem_of_filter in Hd as [Hp Hin].
        apply Is_true_true in Hp. exists p. repeat split; try done.
        intros (q' & Hq' & Hf). exfalso.
        assert (Hin' : q' ∈ filter (λ q, claims_focus report q) (tab_ptrs e)).
        { apply list_elem_of_filter. split; [by apply Is_true_true|done]. }
        rewrite Hfa in Hin'. by apply elem_of_nil in Hin'.
      + exfalso. apply last_None in Hd.
        assert (Hin' : q ∈ filter (λ q, is_drawn report q) (tab_ptrs e)).
        { apply list_elem_of_filter. split; [by apply Is_true_true|done]. }
        rewrite Hd in Hin'. by apply elem_of_nil in Hin'. }
  destruct Hkey as (p & Hact & Hin & Hd & Hfocus).
  assert (Hopen : open (report p) = true ∧ visible (report p) = true).
  { unfold is_drawn in Hd. by apply andb_true_iff in Hd. }
  destruct Hopen as [Hopen Hvis].
  destruct (find_tab_elem_of p (sceneTabs_ e) Hin) as [t0 Ht0].
  pose proof (runFrame_sceneTabs report e) as Htabs.
  assert (Hfind : find_tab p (sceneTabs_ (runFrame report e))
                  = Some (RenderWindow (report p) t0).1).
  { rewrite Htabs, find_tab_kept, Ht0 by done. done. }
  exists p, (RenderWindow (report p) t0).1.
  split; [done|]. split; [done|]. split.
  { unfold Expired, Get. by rewrite Hact, Hfind. }
  split; [done|].
  intros Hsome. specialize (Hfocus Hsome).
  unfold claims_focus in Hfocus. apply andb_true_iff in Hfocus as [_ Hf]. done.
Qed.

Lemma runFrame_active_tab_alive_witness :
  ∃ p t, activeTab_ (runFrame all_focused two_scenes) = WeakTo p
         ∧ find_tab p (sceneTabs_ (runFrame all_focused two_scenes)) = Some t
         ∧ IsRendered t = true.
Proof.
  destruct (runFrame_active_tab_alive all_focused two_scenes)
    as (p & t & H1 & H2 & _ & H3 & _).
  - exists 0%nat. split; [|reflexivity]. vm_compute. left.
  - by exists p, t.
Defined.

Lemma filter_filter_implied (P Q : ptr → Prop)
    `{∀ p, Decision (P p)} `{∀ p, Decision (Q p)} (l : list ptr) :
  (∀ p, P p → Q p) → filter P (filter Q l) = filter P l.
Proof.
  intros Himp. induction l as [|q l IH]; [done|].
  rewrite (filter_cons Q). destruct (decide (Q q)) as [Hq|Hq].
  - rewrite !filter_cons. by rewrite IH.
  - rewrite IH. rewrite (filter_cons_False P); [done|]. intros HP. by apply Hq, Himp.
Qed.

Lemma kept_tabs_stable (report : ptr → PanelReport) (tabs : list (ptr * SceneTab)) :
  let kept := map (λ st, (st.1, (RenderWindow (report st.1) st.2).1))
                (filter (λ st, open (report st.1)) tabs) in
  map (λ st, (st.1, (RenderWindow (report st.1) st.2).1))
    (filter (λ st, open (report st.1)) kept) = kept
  ∧ filter (λ st, ¬ open (report st.1)) kept = [].
Proof.
  induction tabs as [|[p t] tabs IH]; [done|]. cbn zeta in *.
  rewrite filter_cons. cbn [fst].
  destruct (open (report p)) eqn:Hp.
  - rewrite decide_True by (simpl; tauto). cbn [map fst snd].
    rewrite !filter_cons. cbn [fst]. rewrite Hp.
    rewrite decide_True, decide_False by (simpl; tauto).
    cbn [map fst snd]. destruct IH as [-> ->]. done.
  - rewrite decide_False by (simpl; tauto). exact IH.
Qed.

(** X4.  A second pass with the same host reports changes nothing: the
    registry, the active tab and the pool are already what the pass makes
    them. *)
Theorem runFrame_idempotent report e :
  runFrame report (runFrame report e) = runFrame report e.
Proof.
  assert (Htabs : sceneTabs_ (runFrame report (runFrame report e))
                  = sceneTabs_ (runFrame report e)).
  { rewrite (runFrame_sceneTabs report (runFrame report e)).
    rewrite (runFrame_sceneTabs report e).
    apply (kept_tabs_stable report (sceneTabs_ e)). }
  assert (Hpool : idPool_ (runFrame report (runFrame report e))
                  = idPool_ (runFrame report e)).
  { rewrite (runFrame_idPool report (runFrame report e)).
    rewrite (runFrame_sceneTabs report e).
    destruct (kept_tabs_stable report (sceneTabs_ e)) as [_ ->].
    cbn [map list_to_set]. gset_eq. }
  assert (Hptrs : tab_ptrs (runFrame report e)
                  = filter (λ p, open (report p)) (tab_ptrs e)).
  { unfold tab_ptrs. rewrite runFrame_sceneTabs. apply kept_ptrs. }
  assert (Hact : activeTab_ (runFrame report (runFrame report e))
                 = activeTab_ (runFrame report e)).
  { rewrite (runFrame_activeTab report (runFrame report e)), Hptrs.
    rewrite (filter_filter_implied (λ q, claims_focus report q)).
    2:{ intros p. unfold claims_focus. by destruct (open (report p)). }
    rewrite (filter_filter_implied (λ q, is_drawn report q)).
    2:{ intros p. unfold is_drawn. by destruct (open (report p)). }
    rewrite (runFrame_activeTab report e).
    destruct (last (filter (λ q, claims_focus report q) (tab_ptrs e))); [done|].
    by destruct (last (filter (λ q, is_drawn report q) (tab_ptrs e))). }
  rewrite (runFrame_unfold report (runFrame report e)) in *.
  cbn [sceneTabs_ activeTab_ idPool_ set_idPool set_activeTab set_sceneTabs] in *.
  rewrite Htabs, Hpool, Hact.
  rewrite (runFrame_unfold report e).
  reflexivity.
Qed.

(** ** [Editor::IsActive] *)

(** X5.  [IsActive] answers true exactly when the active tab is alive, owns
    the scene asked about and has its focus flag set. *)
Theorem IsActive_true scene e :
  IsActive scene e = Ok true
  ↔ ∃ p t, activeTab_ e = WeakTo p
           ∧ find_tab p (sceneTabs_ e) = Some t
           ∧ scene = Some (GetScene t)
           ∧ SceneTab_IsActive t = true.
Proof.
  unfold IsActive, Arrow, Get. split.
  - destruct scene as [sc|]; [|intros [=]].
    destruct (activeTab_ e) as [|p]; [intros [=]|]. cbn [Null orb bool_decide].
    rewrite bool_decide_eq_false_2 by done. cbn [orb].
    destruct (find_tab p (sceneTabs_ e)) as [t|] eqn:Hfind; [|intros [=]].
    cbn [mbind Result_bind]. case_bool_decide as Hsc; [|intros [=]].
    cbn [mbind Result_bind]. intros [= Hact]. exists p, t.
    split; [done|]. split; [done|]. split; [by symmetry|done].
  - intros (p & t & -> & Hfind & -> & Hact).
    rewrite bool_decide_eq_false_2 by done. cbn [Null orb].
    rewrite Hfind. cbn [mbind Result_bind].
    rewrite bool_decide_eq_true_2 by done. cbn [mbind Result_bind]. by rewrite Hact.
Qed.

(** ** More on saving and loading *)

Lemma restored_ids seen scenes :
  NoDup (map el_id (restored seen scenes))
  ∧ (∀ id, id ∈ map el_id (restored seen scenes)
           ↔ id ∈ map el_id scenes ∧ id ∉ seen)
  ∧ List.length (restored seen scenes) + List.length (conflicts seen scenes)
    = List.length scenes
  ∧ restored seen scenes `sublist_of` scenes
  ∧ Forall (λ ev, ∃ id, ev = LogError_IdTaken id) (conflicts seen scenes).
Proof.
  revert seen. induction scenes as [|b scenes IH]; intros seen; cbn [restored conflicts].
  - split; [constructor|]. split; [|split; [done|split; constructor]].
    intros id. cbn [map]. rewrite elem_of_nil. tauto.
  - case_bool_decide as Hseen.
    + destruct (IH seen) as (H1 & H2 & H3 & H4 & H5).
      split; [done|]. split; [|split; [|split]].
      * intros id. rewrite H2. cbn [map]. rewrite elem_of_cons.
        split; [tauto|]. intros [[->|Hin] Hnot]; [done|tauto].
      * cbn [List.length]. lia.
      * by apply sublist_cons.
      * constructor; [by eexists|done].
    + destruct (IH ({[el_id b]} ∪ seen)) as (H1 & H2 & H3 & H4 & H5).
      cbn [map]. split; [|split; [|split; [|split]]].
      * constructor; [|done]. rewrite H2, elem_of_union, elem_of_singleton. tauto.
      * intros id. rewrite !elem_of_cons, H2, elem_of_union, elem_of_singleton.
        destruct (decide (id = el_id b)) as [->|Hne]; [tauto|tauto].
      * cbn [List.length]. lia.
      * by apply sublist_skip.
      * done.
Qed.

Lemma restore_all_cons env b scenes e :
  restore_all env (b :: scenes) e
  = restore_all env scenes (CreateNewScene env (Some b) e).1.
Proof. reflexivity. Qed.

Lemma restore_all_heap env scenes e :
  idPool_ (restore_all env scenes e) = idPool_ e ∪ list_to_set (map el_id scenes)
  ∧ heapTop_ (restore_all env scenes e) = (heapTop_ e + List.length scenes)%nat
  ∧ ∃ new, sceneTabs_ (restore_all env scenes e) = sceneTabs_ e ++ new
           ∧ Forall (λ st : ptr * SceneTab, (heapTop_ e ≤ st.1)%nat) new.
Proof.
  revert e. induction scenes as [|b scenes IH]; intros e.
  - cbn [restore_all foldl map list_to_set List.length].
    split; [gset_eq|]. split; [lia|]. exists []. by rewrite app_nil_r.
  - rewrite restore_all_cons.
    destruct (decide (el_id b ∈ idPool_ e)) as [Hin|Hin].
    + rewrite CreateNewScene_conflict by done. cbn [fst].
      destruct (IH (emit (LogError_IdTaken (el_id b)) (set_heapTop (S (heapTop_ e)) e)))
        as (H1 & H2 & new & H3 & H4).
      rewrite H1, H2, H3. cbn [idPool_ heapTop_ sceneTabs_ emit set_heapTop map
                               list_to_set List.length].
      split; [gset_eq|]. split; [lia|]. exists new. split; [done|].
      eapply Forall_impl; [exact H4|]. cbn [heapTop_ emit set_heapTop].
      intros st Hst. simpl in Hst. lia.
    + destruct (CreateNewScene_restore env b e Hin) as (t & -> & _ & _). cbn [fst].
      match goal with |- context [restore_all env scenes ?e0] =>
        destruct (IH e0) as (H1 & H2 & new & H3 & H4) end.
      rewrite H1, H2, H3.
      cbn [idPool_ heapTop_ sceneTabs_ set_sceneTabs set_idPool set_heapTop map
           list_to_set List.length] in *.
      split; [gset_eq|]. split; [lia|].
      exists ((heapTop_ e, t) :: new). split; [by rewrite <- app_assoc|].
      constructor; [cbn [fst]; lia|].
      eapply Forall_impl; [exact H4|]. intros st Hst. simpl in Hst. lia.
Qed.

Lemma LoadProject_found_pool env path e xml root :
  path ≠ "" → OpenXML env path e = Some xml → GetRoot xml = Some root →
  idPool_ (LoadProject env path e)
  = list_to_set (map el_id (default [] (r_scenes root)))
  ∧ disk_ (LoadProject env path e) = disk_ e
  ∧ activeTab_ (LoadProject env path e) = activeTab_ e
  ∧ projectFilePath_ (LoadProject env path e) = projectFilePath_ e
  ∧ ∃ new, sceneTabs_ (LoadProject env path e) = new
           ∧ Forall (λ st : ptr * SceneTab, (heapTop_ e ≤ st.1)%nat) new.
Proof.
  intros Hne Hxml Hroot.
  rewrite (LoadProject_found env path e xml root Hne Hxml Hroot).
  set (scenes := default [] (r_scenes root)).
  set (e0 := set_sceneTabs [] _).
  assert (He0 : idPool_ e0 = ∅ ∧ heapTop_ e0 = heapTop_ e ∧ sceneTabs_ e0 = []
                ∧ disk_ e0 = disk_ e ∧ activeTab_ e0 = activeTab_ e
                ∧ projectFilePath_ e0 = projectFilePath_ e).
  { unfold e0. by destruct (r_window root). }
  destruct He0 as (P0 & T0 & S0 & D0 & A0 & F0).
  assert (Hdock : ∀ d e1, idPool_ (LoadDock d e1) = idPool_ e1
                        ∧ disk_ (LoadDock d e1) = disk_ e1
                        ∧ activeTab_ (LoadDock d e1) = activeTab_ e1
                        ∧ projectFilePath_ (LoadDock d e1) = projectFilePath_ e1
                        ∧ sceneTabs_ (LoadDock d e1) = sceneTabs_ e1)
    by by intros [d|] e1.
  destruct (Hdock (r_docks root) (restore_all env scenes e0)) as (-> & -> & -> & -> & ->).
  destruct (restore_all_heap env scenes e0) as (-> & _ & new & -> & Hnew).
  destruct (restore_all_spec env scenes e0) as (_ & _ & _ & _ & _ & -> & -> & ->).
  rewrite P0, S0, D0, A0, F0. rewrite T0 in Hnew.
  split; [gset_eq|]. repeat split; try done. by exists new.
Qed.

(** X6.  Whatever the scene blocks of a project file are, a load that finds
    the file restores tabs with pairwise different identifiers, one for every
    identifier that occurs in the file, in document order; every block is
    either restored or reported as a conflict; and afterwards the pool holds
    exactly the identifiers of the restored tabs. *)
Theorem LoadProject_accounting env path e xml root :
  path ≠ "" →
  OpenXML env path e = Some xml →
  GetRoot xml = Some root →
  NoDup (tab_ids (LoadProject env path e))
  ∧ (∀ id, id ∈ tab_ids (LoadProject env path e)
           ↔ id ∈ map el_id (default [] (r_scenes root)))
  ∧ tab_blocks (LoadProject env path e) `sublist_of` default [] (r_scenes root)
  ∧ (∃ errors,
       log_ (LoadProject env path e) = log_ e ++ errors
       ∧ Forall (λ ev, ∃ id, ev = LogError_IdTaken id) errors
       ∧ List.length (sceneTabs_ (LoadProject env path e)) + List.length errors
         = List.length (default [] (r_scenes root)))
  ∧ idPool_ (LoadProject env path e) = list_to_set (tab_ids (LoadProject env path e)).
Proof.
  intros Hne Hxml Hroot.
  destruct (LoadProject_found_spec env path e xml root Hne Hxml Hroot)
    as (Hblocks & Hlog & _).
  set (scenes := default [] (r_scenes root)) in *.
  destruct (restored_ids ∅ scenes) as (H1 & H2 & H3 & H4 & H5).
  rewrite tab_ids_blocks, Hblocks.
  split; [done|]. split; [|split; [done|split]].
  - intros id. rewrite H2, elem_of_empty. tauto.
  - exists (conflicts ∅ scenes). split; [done|]. split; [done|].
    rewrite <- H3, <- Hblocks. unfold tab_blocks. by rewrite length_map.
  - destruct (LoadProject_found_pool env path e xml root Hne Hxml Hroot) as (-> & _).
    fold scenes. apply set_eq. intros id.
    rewrite !elem_of_list_to_set, H2, elem_of_empty. tauto.
Qed.

Lemma LoadProject_accounting_witness :
  let a := mkSceneEl 5 "A" "a.xml" "" in
  let b := mkSceneEl 5 "B" "b.xml" "" in
  let c := mkSceneEl 5 "C" "c.xml" "" in
  let doc := mkXMLFile (Some (mkXMLRoot "0" None (Some [a; b; c]) None)) in
  let e := LoadProject demo_env "/dup.xml" (Editor_new {["/dup.xml" := doc]}) in
  NoDup (tab_ids e) ∧ idPool_ e = list_to_set (tab_ids e).
Proof.
  intros a b c doc e.
  destruct (LoadProject_accounting demo_env "/dup.xml"
              (Editor_new {["/dup.xml" := doc]}) doc
              (mkXMLRoot "0" None (Some [a; b; c]) None))
    as (H1 & _ & _ & _ & H5); [done|reflexivity|reflexivity|].
  split; [exact H1|exact H5].
Defined.

(** ** Invariants of the reachable states *)

Section Invariant.
Context (env : Env) (I : Editor → Prop).
Hypothesis I_new : ∀ disk, I (Editor_new disk).
Hypothesis I_emit : ∀ ev e, I e → I (emit ev e).
Hypothesis I_path : ∀ v e, I e → I (set_projectFilePath v e).
Hypothesis I_create : ∀ project e, I e → I (CreateNewScene env project e).1.
Hypothesis I_load : ∀ path e, I e → I (LoadProject env path e).
Hypothesis I_save : ∀ path e, I e → I (SaveProject env path e).
Hypothesis I_frame : ∀ report e, I e → I (runFrame report e).
Hypothesis I_tabs :
  ∀ tabs e, map fst tabs = tab_ptrs e → map (λ st, id_ st.2) tabs = tab_ids e →
            I e → I (set_sceneTabs tabs e).

Lemma invariant_guarded f e e' :
  (∀ p t e0, I e0 → I (f p t e0)) →
  (if negb (Expired (activeTab_ e) (sceneTabs_ e)) then WithActive f e else Ok e) = Ok e' →
  I e → I e'.
Proof using Type.
  intros Hf. destruct (Expired (activeTab_ e) (sceneTabs_ e)) eqn:Hexp; cbn [negb].
  - by intros [= <-].
  - destruct (WithActive_live f e Hexp) as (p & t & _ & _ & ->).
    intros [= <-]. apply Hf.
Qed.

Lemma invariant_save_scenes (tabs : list (ptr * SceneTab)) e :
  I e → I (foldl (λ acc st, emit (Call_SaveScene st.1) acc) e tabs).
Proof using I_emit.
  revert e. induction tabs as [|st tabs IH]; intros e He; [done|].
  cbn [foldl]. by apply IH, I_emit.
Qed.

Lemma invariant_RenderMenuBar ui e e' :
  RenderMenuBar env ui e = Ok e' → I e → I e'.
Proof using I_emit I_path I_create I_load I_save.
  intros Hrun Hinv. unfold RenderMenuBar in Hrun.
  destruct (RenderMenuBar_items env ui e) as [[save e1]|] eqn:Hitems; [|done].
  cbn [mbind Result_bind] in Hrun.
  assert (Hinv1 : I e1).
  { unfold RenderMenuBar_items in Hitems.
    destruct (BeginMainMenuBar ui); [|by injection Hitems as _ <-].
    match type of Hitems with
    | context [let '(s, e) := ?x in _] =>
        assert (Hx : I x.2);
        [|destruct x as [save0 e0]; cbn [snd] in Hx]
    end.
    { destruct (BeginMenu_File ui); [|done].
      destruct (MenuItem_SaveProjectAs ui), (MenuItem_OpenProject ui),
        (MenuItem_NewScene ui), (MenuItem_Exit ui); cbn [snd]; eauto 10. }
    destruct (Expired (activeTab_ e0) (sceneTabs_ e0)) eqn:Hexp; cbn [negb] in Hitems.
    - by injection Hitems as _ <-.
    - destruct (WithActive_live
        (λ p _ e, emit Send_EditorToolbarButtons (emit (Call_RenderGizmoButtons p) e))
        e0 Hexp) as (p & t & _ & _ & Hw).
      rewrite Hw in Hitems. cbn [mbind Result_bind] in Hitems.
      injection Hitems as _ <-. eauto. }
  destruct save; injection Hrun as <-; [|done].
  unfold RenderMenuBar_save. apply invariant_save_scenes.
  case_bool_decide; eauto.
Qed.

Lemma invariant_OnUpdate ui e e' : OnUpdate env ui e = Ok e' → I e → I e'.
Proof using I_emit I_path I_create I_load I_save I_frame I_tabs.
  intros Hrun Hinv. unfold OnUpdate in Hrun.
  destruct (RenderMenuBar env (menu ui) e) as [e1|] eqn:Hmenu; [|done].
  apply (invariant_RenderMenuBar _ _ _ Hmenu) in Hinv.
  cbn [mbind Result_bind] in Hrun.
  match type of Hrun with
  | context [mbind _ ?x] => destruct x as [e2|] eqn:H2; [|done]
  end.
  assert (Hinv2 : I e2).
  { destruct (BeginDock_Hierarchy ui); [|by injection H2 as <-].
    eapply invariant_guarded; [|exact H2|done]. intros p t e0 He0. by apply I_emit. }
  cbn [mbind Result_bind] in Hrun.
  assert (Hinv3 := I_frame (host ui) e2 Hinv2).
  set (e3 := runFrame (host ui) e2) in *.
  match type of Hrun with
  | context [mbind _ ?x] => destruct x as [e4|] eqn:H4; [|done]
  end.
  assert (Hinv4 : I e4).
  { eapply invariant_guarded; [|exact H4|done]. intros p t e0 He0. by apply I_emit. }
  cbn [mbind Result_bind] in Hrun.
  match type of Hrun with
  | context [mbind _ ?x] => destruct x as [e5|] eqn:H5; [|done]
  end.
  assert (Hinv5 : I e5).
  { destruct (BeginDock_Inspector ui); [|by injection H5 as <-].
    eapply invariant_guarded; [|exact H5|done]. intros p t e0 He0. by apply I_emit. }
  cbn [mbind Result_bind] in Hrun.
  match type of Hrun with
  | context [mbind _ ?x] => destruct x as [e6|] eqn:H6; [|done]
  end.
  assert (Hinv6 : I e6).
  { destruct (last (sceneTabs_ e5)); injection H6 as <-; eauto. }
  cbn [mbind Result_bind] in Hrun.
  destruct (ResourceBrowserWindow ui) as [selected|]; [|by injection Hrun as <-].
  destruct (IsSceneContent env selected); [|by injection Hrun as <-].
  pose proof (I_create None e6 Hinv6) as Hinv7.
  destruct (CreateNewScene env None e6) as [e7 [p|]]; [|done].
  cbn [fst] in Hinv7. injection Hrun as <-.
  apply I_emit, I_tabs; [| |done].
  - unfold tab_ptrs, modify_tab. rewrite map_map. apply map_ext.
    intros [q t]. by case_bool_decide.
  - apply tab_ids_modify_tab. intros t. unfold LoadScene.
    by destruct (LoadScene_ok env selected).
Qed.

Lemma invariant_Start e e' : Start env e = Ok e' → I e → I e'.
Proof using I_load I_tabs.
  unfold Start. intros Hrun Hinv.
  apply (I_load DefaultEditorProject) in Hinv.
  destruct (sceneTabs_ (LoadProject env DefaultEditorProject e))
    as [|[p front] rest] eqn:Htabs; [done|].
  injection Hrun as <-. apply I_tabs; [| |done].
  - unfold tab_ptrs. by rewrite Htabs.
  - unfold tab_ids. by rewrite Htabs.
Qed.

Lemma reachable_invariant e : reachable env e → I e.
Proof using All.
  induction 1 as [disk | e e' _ IH Hrun | ui e e' _ IH Hrun
                  | e _ IH | path e _ IH | path e _ IH | project e _ IH].
  - apply I_new.
  - by apply (invariant_Start e).
  - by apply (invariant_OnUpdate ui e).
  - by apply I_save.
  - by apply I_load.
  - by apply I_save.
  - by apply I_create.
Qed.

End Invariant.

Lemma find_tab_not_elem_of p (tabs : list (ptr * SceneTab)) :
  p ∉ map fst tabs → find_tab p tabs = None.
Proof.
  induction tabs as [|[q t] tabs IH]; [done|]. cbn [map fst find_tab].
  rewrite not_elem_of_cons. intros [Hne Hnot].
  rewrite bool_decide_eq_false_2 by done. by apply IH.
Qed.

Lemma heap_ok_ext e e' :
  tab_ptrs e' = tab_ptrs e → activeTab_ e' = activeTab_ e →
  (heapTop_ e ≤ heapTop_ e')%nat → heap_ok e → heap_ok e'.
Proof.
  unfold heap_ok. intros -> -> Hle [Htabs Hact]. split.
  - eapply Forall_impl; [exact Htabs|]. intros p Hp. simpl in Hp. lia.
  - intros p Hp. specialize (Hact p Hp). lia.
Qed.

Lemma heap_ok_snoc e e' t :
  sceneTabs_ e' = sceneTabs_ e ++ [(heapTop_ e, t)] →
  activeTab_ e' = activeTab_ e → heapTop_ e' = S (heapTop_ e) →
  heap_ok e → heap_ok e'.
Proof.
  unfold heap_ok, tab_ptrs. intros -> -> -> [Htabs Hact]. split.
  - rewrite map_app. apply Forall_app. split.
    + eapply Forall_impl; [exact Htabs|]. intros p Hp. simpl in Hp. lia.
    + repeat constructor.
  - intros p Hp. specialize (Hact p Hp). lia.
Qed.

Lemma heap_ok_CreateNewScene env project e :
  heap_ok e → heap_ok (CreateNewScene env project e).1.
Proof.
  intros Hok. destruct project as [b|].
  - destruct (decide (el_id b ∈ idPool_ e)) as [Hin|Hin].
    + rewrite CreateNewScene_conflict by done. cbn [fst].
      revert Hok. apply heap_ok_ext; [done|done|]. simpl. lia.
    + destruct (CreateNewScene_restore env b e Hin) as (t & -> & _). cbn [fst].
      by apply (heap_ok_snoc e _ t).
  - destruct (CreateNewScene_new env e) as (t & -> & _). cbn [fst].
    by apply (heap_ok_snoc e _ t).
Qed.

Lemma heap_ok_restore_all env scenes e :
  heap_ok e → heap_ok (restore_all env scenes e).
Proof.
  revert e. induction scenes as [|b scenes IH]; intros e Hok; [done|].
  rewrite restore_all_cons. by apply IH, heap_ok_CreateNewScene.
Qed.

Lemma heap_ok_LoadProject env path e : heap_ok e → heap_ok (LoadProject env path e).
Proof.
  intros Hok. destruct (decide (path = "")) as [->|Hne]; [done|].
  destruct (OpenXML env path e) as [xml|] eqn:Hxml.
  2:{ rewrite LoadProject_no_root; [done|by left]. }
  destruct (GetRoot xml) as [root|] eqn:Hroot.
  2:{ rewrite LoadProject_no_root; [done|]. right. by exists xml. }
  rewrite (LoadProject_found env path e xml root Hne Hxml Hroot).
  assert (Hdock : ∀ d e0, heap_ok e0 → heap_ok (LoadDock d e0)).
  { intros [d|] e0; [|done]. by apply heap_ok_ext. }
  apply Hdock, heap_ok_restore_all.
  destruct Hok as [_ Hact]. split.
  - unfold tab_ptrs. cbn [sceneTabs_ set_sceneTabs map]. constructor.
  - by destruct (r_window root).
Qed.

Lemma heap_ok_runFrame report e : heap_ok e → heap_ok (runFrame report e).
Proof.
  intros [Htabs Hact].
  assert (Hptrs : tab_ptrs (runFrame report e)
                  = filter (λ p, open (report p)) (tab_ptrs e)).
  { unfold tab_ptrs. rewrite runFrame_sceneTabs. apply kept_ptrs. }
  assert (Htop : heapTop_ (runFrame report e) = heapTop_ e).
  { by rewrite runFrame_unfold. }
  rewrite Forall_forall in Htabs.
  split.
  - rewrite Hptrs, Htop. apply Forall_forall. intros p Hp.
    apply list_elem_of_filter in Hp as [_ Hp]. by apply Htabs.
  - rewrite Htop, runFrame_activeTab. intros p.
    destruct (last (filter (λ q, claims_focus report q) (tab_ptrs e))) as [q|] eqn:Hfa.
    + intros [= <-]. apply last_Some_elem_of, list_elem_of_filter in Hfa as [_ Hq].
      by apply Htabs.
    + destruct (last (filter (λ q, is_drawn report q) (tab_ptrs e))) as [q|] eqn:Hd.
      * intros [= <-]. apply last_Some_elem_of, list_elem_of_filter in Hd as [_ Hq].
        by apply Htabs.
      * apply Hact.
Qed.

Lemma heap_ok_SaveProject env path e : heap_ok e → heap_ok (SaveProject env path e).
Proof.
  unfold SaveProject. case_bool_decide; [done|].
  destruct (SaveFile_ok env path); by apply heap_ok_ext.
Qed.

Lemma reachable_heap_ok env e : reachable env e → heap_ok e.
Proof.
  apply reachable_invariant.
  - intros disk. split; [constructor|done].
  - intros ev e0. by apply heap_ok_ext.
  - intros v e0. by apply heap_ok_ext.
  - apply heap_ok_CreateNewScene.
  - apply heap_ok_LoadProject.
  - apply heap_ok_SaveProject.
  - apply heap_ok_runFrame.
  - intros tabs e0 Hptrs _. apply heap_ok_ext; [|done|done].
    unfold tab_ptrs at 1. by cbn [sceneTabs_ set_sceneTabs].
Qed.

(** X7.  A load that finds the project file closes every tab that was open
    but leaves [activeTab_] as it was: in any state the editor can reach, the
    handle is expired right after the load, so the panels guarded by
    [Expired()] show nothing, while [IsActive] with a scene that is not null
    goes through the dead handle if one had been assigned. *)
Theorem LoadProject_expires_active env path e xml root :
  reachable env e →
  path ≠ "" →
  OpenXML env path e = Some xml →
  GetRoot xml = Some root →
  activeTab_ (LoadProject env path e) = activeTab_ e
  ∧ Expired (activeTab_ (LoadProject env path e))
            (sceneTabs_ (LoadProject env path e)) = true
  ∧ (Null (activeTab_ e) = false →
     ∀ scene, IsActive (Some scene) (LoadProject env path e) = Fault).
Proof.
  intros Hreach Hne Hxml Hroot.
  destruct (LoadProject_found_pool env path e xml root Hne Hxml Hroot)
    as (_ & _ & Hact & _ & new & Htabs & Hnew).
  destruct (reachable_heap_ok env e Hreach) as [_ Hbelow].
  rewrite Hact, Htabs.
  assert (Hgone : ∀ p, activeTab_ e = WeakTo p → find_tab p new = None).
  { intros p Hp. apply find_tab_not_elem_of. intros Hin.
    apply list_elem_of_fmap in Hin as (st & -> & Hst).
    rewrite Forall_forall in Hnew. specialize (Hnew st Hst).
    specialize (Hbelow _ Hp). lia. }
  split; [done|]. split.
  - unfold Expired, Get. destruct (activeTab_ e) as [|p] eqn:Ha; [done|].
    by rewrite (Hgone p).
  - intros Hnull scene. destruct (activeTab_ e) as [|p] eqn:Ha; [done|].
    apply (IsActive_expired_handle scene _ p); [by rewrite Hact|].
    rewrite Htabs. by apply Hgone.
Qed.

Lemma saved_session_reachable : reachable demo_env saved_session.
Proof.
  unfold saved_session.
  destruct (OnUpdate demo_env focus_frame (CreateNewScene demo_env None (Editor_new ∅)).1)
    as [e|] eqn:Hrun.
  - apply reach_SaveProject.
    apply (reach_OnUpdate demo_env focus_frame _ _ (reach_CreateNewScene demo_env None _
             (reach_new demo_env ∅)) Hrun).
  - apply reach_new.
Qed.

Lemma LoadProject_expires_active_witness :
  Expired (activeTab_ (LoadProject demo_env "/project.xml" saved_session))
          (sceneTabs_ (LoadProject demo_env "/project.xml" saved_session)) = true
  ∧ IsActive (Some 0%nat) (LoadProject demo_env "/project.xml" saved_session) = Fault.
Proof.
  destruct (LoadProject_expires_active demo_env "/project.xml" saved_session
              (project_document saved_session)
              {| r_version := "0"; r_window := Some (window_ saved_session);
                 r_scenes := Some (tab_blocks saved_session);
                 r_docks := Some (docks_ saved_session) |})
    as (_ & Hexp & Hfault).
  - apply saved_session_reachable.
  - done.
  - vm_compute. reflexivity.
  - reflexivity.
  - split; [exact Hexp|]. apply Hfault. vm_compute. reflexivity.
Defined.

(** X9.  For a relative path [LoadProject] takes the document from the
    resource cache when the cache has one: the tabs it restores are decided
    by the cached document alone, whatever is on disk under that path, even
    a project written there by [SaveProject] just before. *)
Theorem LoadProject_prefers_cache env path cached root :
  path ≠ "" →
  IsAbsolutePath env path = false →
  GetResource env path = Some cached →
  GetRoot cached = Some root →
  ∀ e, tab_blocks (LoadProject env path e) = restored ∅ (default [] (r_scenes root))
       ∧ tab_blocks (LoadProject env path (SaveProject env path e))
         = restored ∅ (default [] (r_scenes root)).
Proof.
  intros Hne Hrel Hcache Hroot e.
  assert (Hopen : ∀ e0, OpenXML env path e0 = Some cached).
  { intros e0. unfold OpenXML. by rewrite Hrel, Hcache. }
  destruct (LoadProject_found_spec env path e cached root Hne (Hopen e) Hroot)
    as (-> & _).
  by destruct (LoadProject_found_spec env path (SaveProject env path e) cached root Hne
                 (Hopen _) Hroot) as (-> & _).
Qed.

(** Nothing on disk, one project in the resource cache under a relative
    path. *)
Lemma LoadProject_prefers_cache_witness :
  let cached := mkXMLFile (Some (mkXMLRoot "0" None
                   (Some [mkSceneEl 9 "Cached" "c.xml" ""]) None)) in
  let env := mkEnv (IsAbsolutePath demo_env) (λ _, Some cached) (SaveFile_ok demo_env)
               (LoadScene_ok demo_env) (IsSceneContent demo_env) (pick demo_env) in
  tab_blocks (LoadProject env "project.xml" (SaveProject env "project.xml" two_scenes))
  = [mkSceneEl 9 "Cached" "c.xml" ""].
Proof.
  intros cached env.
  destruct (LoadProject_prefers_cache env "project.xml" cached
              (mkXMLRoot "0" None (Some [mkSceneEl 9 "Cached" "c.xml" ""]) None))
    with (e := two_scenes) as (_ & H); [done|reflexivity|reflexivity|reflexivity|].
  exact H.
Defined.

Lemma LoadProject_OpenXML env path path' e :
  OpenXML env path' (LoadProject env path e) = OpenXML env path' e.
Proof.
  unfold OpenXML.
  assert (Hdisk : disk_ (LoadProject env path e) = disk_ e).
  { destruct (decide (path = "")) as [->|Hne]; [done|].
    destruct (OpenXML env path e) as [xml|] eqn:Hxml.
    2:{ rewrite LoadProject_no_root; [done|by left]. }
    destruct (GetRoot xml) as [root|] eqn:Hroot.
    2:{ rewrite LoadProject_no_root; [done|]. right. by exists xml. }
    by destruct (LoadProject_found_pool env path e xml root Hne Hxml Hroot)
      as (_ & -> & _). }
  by rewrite Hdisk.
Qed.

(** X10.  Loading the same project a second time restores the same scene
    blocks, pool, window and dock layout as loading it once. *)
Theorem LoadProject_twice env path e :
  tab_blocks (LoadProject env path (LoadProject env path e))
  = tab_blocks (LoadProject env path e)
  ∧ idPool_ (LoadProject env path (LoadProject env path e))
    = idPool_ (LoadProject env path e)
  ∧ window_ (LoadProject env path (LoadProject env path e))
    = window_ (LoadProject env path e)
  ∧ docks_ (LoadProject env path (LoadProject env path e))
    = docks_ (LoadProject env path e).
Proof.
  destruct (decide (path = "")) as [->|Hne]; [done|].
  pose proof (LoadProject_OpenXML env path path e) as Hsame.
  destruct (OpenXML env path e) as [xml|] eqn:Hxml.
  2:{ assert (Hno : LoadProject env path e = e).
      { apply LoadProject_no_root. by left. }
      by rewrite !Hno. }
  destruct (GetRoot xml) as [root|] eqn:Hroot.
  2:{ assert (Hno : LoadProject env path e = e).
      { apply LoadProject_no_root. right. by exists xml. }
      by rewrite !Hno. }
  destruct (LoadProject_found_spec env path e xml root Hne Hxml Hroot)
    as (B1 & _ & _ & W1 & D1).
  destruct (LoadProject_found_spec env path _ xml root Hne Hsame Hroot)
    as (B2 & _ & _ & W2 & D2).
  destruct (LoadProject_found_pool env path e xml root Hne Hxml Hroot) as (P1 & _).
  destruct (LoadProject_found_pool env path _ xml root Hne Hsame Hroot) as (P2 & _).
  rewrite B2, B1, P2, P1, W2, D2, W1, D1.
  repeat split; try done.
  - by destruct (r_window root).
  - by destruct (r_docks root).
Qed.

(** X11.  Loading a project file that has the shape [SaveProject] writes
    (version "0", a window whose numbers are in the range of [int], scene
    blocks with pairwise different identifiers and a dock layout) and saving
    it back to the same path leaves the file as it was. *)
Theorem LoadProject_SaveProject_same_file env path e w scenes d :
  path ≠ "" →
  IsAbsolutePath env path = true ∨ GetResource env path = None →
  SaveFile_ok env path = true →
  disk_ e !! path
  = Some {| GetRoot := Some {| r_version := "0"; r_window := Some w;
                               r_scenes := Some scenes; r_docks := Some d |} |} →
  Window_in_range w →
  NoDup (map el_id scenes) →
  disk_ (SaveProject env path (LoadProject env path e)) = disk_ e.
Proof.
  intros Hne Hres Hok Hfile _ Hnd.
  set (root := {| r_version := "0"; r_window := Some w;
                  r_scenes := Some scenes; r_docks := Some d |}) in *.
  assert (Hopen : OpenXML env path e = Some {| GetRoot := Some root |}).
  { unfold OpenXML. rewrite Hfile.
    by destruct Hres as [-> | ->]; [|destruct (IsAbsolutePath env path)]. }
  destruct (LoadProject_found_spec env path e _ root Hne Hopen eq_refl)
    as (Hblocks & _ & _ & Hwin & Hdocks).
  destruct (LoadProject_found_pool env path e _ root Hne Hopen eq_refl)
    as (_ & Hdisk & _).
  unfold root in Hblocks, Hwin, Hdocks.
  cbn [r_scenes r_window r_docks default from_option id] in Hblocks, Hwin, Hdocks.
  destruct (restored_fresh ∅ scenes Hnd) as [Hres' _].
  { intros b _. apply not_elem_of_empty. }
  rewrite Hres' in Hblocks.
  unfold SaveProject. rewrite bool_decide_eq_false_2, Hok by done.
  cbn [disk_ emit set_disk]. rewrite Hdisk.
  apply insert_id. rewrite Hfile. do 2 f_equal.
  fold (tab_blocks (LoadProject env path e)).
  by rewrite Hblocks, Hwin, Hdocks.
Qed.

Lemma LoadProject_SaveProject_same_file_witness :
  disk_ (SaveProject demo_env "/project.xml"
           (LoadProject demo_env "/project.xml" saved_session))
  = disk_ saved_session.
Proof.
  apply (LoadProject_SaveProject_same_file demo_env "/project.xml" saved_session
           (mkWindow 1920 1080 0 0)
           [mkSceneEl 0 "Scene" "" ""] "").
  - done.
  - by left.
  - reflexivity.
  - vm_compute. reflexivity.
  - unfold Window_in_range, Int_range. cbn [width height x_ y_]. lia.
  - repeat constructor. rewrite elem_of_nil. tauto.
Defined.

(** ** The File menu *)

Lemma SaveProject_empty env e : SaveProject env "" e = e.
Proof. reflexivity. Qed.

Lemma toolbar_log e1 save ui r :
  (if negb (Expired (activeTab_ e1) (sceneTabs_ e1))
   then e ← WithActive (λ p _ e, emit Send_EditorToolbarButtons
                                   (emit (Call_RenderGizmoButtons p) e)) e1;
        Ok (save || ToolbarButton_Save ui, e)
   else Ok (save, e1)) = Ok r →
  sceneTabs_ r.2 = sceneTabs_ e1 ∧ idPool_ r.2 = idPool_ e1
  ∧ disk_ r.2 = disk_ e1 ∧ projectFilePath_ r.2 = projectFilePath_ e1
  ∧ activeTab_ r.2 = activeTab_ e1
  ∧ (∃ pre, log_ r.2 = log_ e1 ++ pre
            ∧ Forall (λ ev, ∃ p, ev = Call_RenderGizmoButtons p
                                 ∨ ev = Send_EditorToolbarButtons) pre)
  ∧ (save = true → r.1 = true)
  ∧ (save = false → ToolbarButton_Save ui = false → r.1 = false).
Proof.
  destruct (Expired (activeTab_ e1) (sceneTabs_ e1)) eqn:Hexp; cbn [negb].
  - intros [= <-]. cbn [fst snd]. repeat split; try done.
    exists []. by rewrite app_nil_r.
  - destruct (WithActive_live
                (λ p _ e, emit Send_EditorToolbarButtons (emit (Call_RenderGizmoButtons p) e))
                e1 Hexp) as (p & t & _ & _ & ->).
    cbn [mbind Result_bind]. intros [= <-]. cbn [fst snd].
    repeat split; try done.
    + exists [Call_RenderGizmoButtons p; Send_EditorToolbarButtons].
      cbn [log_ emit]. rewrite <- app_assoc. split; [done|].
      repeat constructor; exists p; tauto.
    + intros ->. done.
    + intros -> ->. done.
Qed.

(** X12.  "Save Project As" with the file dialog cancelled: the project path
    is forgotten, no project file is written, and [SaveScene] is still
    called on every tab. *)
Theorem RenderMenuBar_save_as_cancelled env ui e :
  BeginMainMenuBar ui = true →
  BeginMenu_File ui = true →
  MenuItem_SaveProjectAs ui = true →
  MenuItem_OpenProject ui = false →
  MenuItem_NewScene ui = false →
  saveFileDialog ui = "" →
  ∃ e', RenderMenuBar env ui e = Ok e'
        ∧ projectFilePath_ e' = ""
        ∧ disk_ e' = disk_ e
        ∧ sceneTabs_ e' = sceneTabs_ e
        ∧ ∃ pre, log_ e' = log_ e ++ pre ++ map Call_SaveScene (tab_ptrs e)
                 ∧ Forall (λ ev, ∀ path ok, ev ≠ Io_SaveFile path ok) pre.
Proof.
  intros Hbar Hfile Has Hopen Hnew Hdialog.
  unfold RenderMenuBar, RenderMenuBar_items. rewrite Hbar, Hfile, Has, Hopen, Hnew.
  set (e1 := if MenuItem_Exit ui then _ else _).
  assert (He1 : sceneTabs_ e1 = sceneTabs_ e ∧ disk_ e1 = disk_ e
                ∧ projectFilePath_ e1 = ""
                ∧ ∃ pre, log_ e1 = log_ e ++ pre
                         ∧ Forall (λ ev, ∀ path ok, ev ≠ Io_SaveFile path ok) pre).
  { unfold e1. destruct (MenuItem_Exit ui); repeat split; try done.
    - exists [Call_Exit]. split; [done|]. by repeat constructor.
    - exists []. rewrite app_nil_r. by split. }
  destruct He1 as (T1 & D1 & P1 & pre1 & L1 & F1).
  match goal with |- context [mbind _ ?x] => destruct x as [r|] eqn:Hr end.
  2:{ exfalso. revert Hr.
      destruct (Expired (activeTab_ e1) (sceneTabs_ e1)) eqn:Hexp; cbn [negb]; [done|].
      destruct (WithActive_live
                  (λ p _ e, emit Send_EditorToolbarButtons
                              (emit (Call_RenderGizmoButtons p) e)) e1 Hexp)
        as (p & t & _ & _ & ->). done. }
  destruct (toolbar_log e1 true ui r Hr) as (T2 & _ & D2 & P2 & _ & (pre2 & L2 & F2) & S2 & _).
  destruct r as [save e2]. cbn [fst snd] in *. rewrite (S2 eq_refl).
  cbn [mbind Result_bind]. eexists. split; [reflexivity|].
  unfold RenderMenuBar_save. rewrite P2, P1, bool_decide_eq_true_2 by done.
  cbn [projectFilePath_ set_projectFilePath]. rewrite Hdialog.
  rewrite SaveProject_empty.
  match goal with |- context [foldl _ ?e0 ?tabs] =>
    destruct (save_scenes_log tabs e0) as (L3 & T3 & _ & _ & D3) end.
  rewrite L3, T3, D3.
  cbn [projectFilePath_ disk_ sceneTabs_ log_ set_projectFilePath].
  split.
  { by rewrite save_scenes_projectFilePath. }
  split; [by rewrite D2|]. split; [by rewrite T2|].
  exists (pre1 ++ pre2). rewrite L2, L1, T2, T1, <- !app_assoc. split; [done|].
  apply Forall_app. split; [done|].
  eapply Forall_impl; [exact F2|]. intros ev [p [-> | ->]] path ok; done.
Qed.

Lemma RenderMenuBar_save_as_cancelled_witness :
  ∃ e', RenderMenuBar demo_env save_as_cancelled
          (set_projectFilePath "/project.xml" two_scenes) = Ok e'
        ∧ projectFilePath_ e' = ""
        ∧ disk_ e' = ∅
        ∧ ∃ pre, log_ e' = pre ++ [Call_SaveScene 0; Call_SaveScene 1]
                 ∧ Forall (λ ev, ∀ path ok, ev ≠ Io_SaveFile path ok) pre.
Proof.
  destruct (RenderMenuBar_save_as_cancelled demo_env save_as_cancelled
              (set_projectFilePath "/project.xml" two_scenes))
    as (e' & Hrun & Hpath & Hdisk & _ & pre & Hlog & Hpre); try reflexivity.
  exists e'. split; [exact Hrun|]. split; [exact Hpath|]. split; [exact Hdisk|].
  exists pre. split; [exact Hlog|exact Hpre].
Defined.

(** X13.  "Open Project" with no save action in the same frame: the project
    path becomes whatever the dialog returned, also when the dialog was
    cancelled or the file could not be loaded; in that case the registry and
    the pool stay as they were.  When the file is found, the tabs are the
    ones restored from it. *)
Theorem RenderMenuBar_open_project env ui e :
  BeginMainMenuBar ui = true →
  BeginMenu_File ui = true →
  MenuItem_OpenProject ui = true →
  MenuItem_SaveProject ui = false →
  MenuItem_SaveProjectAs ui = false →
  MenuItem_NewScene ui = false →
  ToolbarButton_Save ui = false →
  ∃ e', RenderMenuBar env ui e = Ok e'
        ∧ projectFilePath_ e' = openFileDialog ui
        ∧ disk_ e' = disk_ e
        ∧ (openFileDialog ui = "" ∨ OpenXML env (openFileDialog ui) e = None →
           sceneTabs_ e' = sceneTabs_ e ∧ idPool_ e' = idPool_ e)
        ∧ (∀ xml root, openFileDialog ui ≠ "" →
             OpenXML env (openFileDialog ui) e = Some xml → GetRoot xml = Some root →
             tab_blocks e' = restored ∅ (default [] (r_scenes root))).
Proof.
  intros Hbar Hfile Hopen Hsave Has Hnew Htool.
  unfold RenderMenuBar, RenderMenuBar_items.
  rewrite Hbar, Hfile, Hopen, Hsave, Has, Hnew.
  set (path := openFileDialog ui).
  set (e0 := set_projectFilePath path e).
  set (e1 := if MenuItem_Exit ui then _ else _).
  assert (Hxml0 : OpenXML env path e0 = OpenXML env path e) by done.
  assert (Hload : projectFilePath_ (LoadProject env path e0) = path
                  ∧ disk_ (LoadProject env path e0) = disk_ e
                  ∧ (path = "" ∨ OpenXML env path e = None →
                     LoadProject env path e0 = e0)
                  ∧ (∀ xml root, path ≠ "" → OpenXML env path e = Some xml →
                       GetRoot xml = Some root →
                       tab_blocks (LoadProject env path e0)
                       = restored ∅ (default [] (r_scenes root)))).
  { assert (Hnoop : path = "" ∨ OpenXML env path e = None → LoadProject env path e0 = e0).
    { intros [->|Hnone]; [done|]. apply LoadProject_no_root. left. by rewrite Hxml0. }
    assert (Hfound : ∀ xml root, path ≠ "" → OpenXML env path e = Some xml →
              GetRoot xml = Some root →
              projectFilePath_ (LoadProject env path e0) = path
              ∧ disk_ (LoadProject env path e0) = disk_ e
              ∧ tab_blocks (LoadProject env path e0)
                = restored ∅ (default [] (r_scenes root))).
    { intros xml root Hne Hxml Hroot. rewrite <- Hxml0 in Hxml.
      destruct (LoadProject_found_pool env path e0 xml root Hne Hxml Hroot)
        as (_ & -> & _ & -> & _).
      by destruct (LoadProject_found_spec env path e0 xml root Hne Hxml Hroot)
        as (-> & _). }
    destruct (decide (path = "")) as [Hempty|Hne].
    { rewrite Hnoop by by left. repeat split; try done. }
    destruct (OpenXML env path e) as [xml|] eqn:Hxml.
    2:{ rewrite Hnoop by by right. repeat split; try done. }
    destruct (GetRoot xml) as [root|] eqn:Hroot.
    - destruct (Hfound xml root Hne eq_refl Hroot) as (H1 & H2 & H3).
      split; [done|]. split; [done|]. split.
      + intros [Hempty|Hnone]; done.
      + intros xml' root' _ [= <-] Hroot'. rewrite Hroot in Hroot'.
        by injection Hroot' as <-.
    - assert (Hno : LoadProject env path e0 = e0).
      { apply LoadProject_no_root. right. exists xml. by rewrite Hxml0. }
      rewrite Hno. split; [done|]. split; [done|]. split; [done|].
      intros xml' root' _ [= <-] Hroot'. congruence. }
  destruct Hload as (L1 & L2 & L3 & L4).
  assert (He1 : projectFilePath_ e1 = path ∧ disk_ e1 = disk_ e
                ∧ sceneTabs_ e1 = sceneTabs_ (LoadProject env path e0)
                ∧ idPool_ e1 = idPool_ (LoadProject env path e0)).
  { unfold e1. by destruct (MenuItem_Exit ui). }
  destruct He1 as (P1 & D1 & T1 & I1).
  match goal with |- context [mbind _ ?x] => destruct x as [r|] eqn:Hr end.
  2:{ exfalso. revert Hr.
      destruct (Expired (activeTab_ e1) (sceneTabs_ e1)) eqn:Hexp; cbn [negb]; [done|].
      destruct (WithActive_live
                  (λ p _ e, emit Send_EditorToolbarButtons
                              (emit (Call_RenderGizmoButtons p) e)) e1 Hexp)
        as (p & t & _ & _ & ->). done. }
  destruct (toolbar_log e1 false ui r Hr) as (T2 & I2 & D2 & P2 & _ & _ & _ & S2).
  destruct r as [save e2]. cbn [fst snd] in *. rewrite (S2 eq_refl Htool).
  cbn [mbind Result_bind]. exists e2. split; [done|].
  rewrite P2, D2, T2, I2, P1, D1, T1, I1.
  split; [done|]. split; [done|]. split.
  - intros Hnone. by rewrite (L3 Hnone).
  - intros xml root Hne Hxml Hroot. unfold tab_blocks. rewrite T2, T1.
    by apply (L4 xml root).
Qed.

Lemma RenderMenuBar_open_project_witness :
  ∃ e', RenderMenuBar demo_env (open_project "")
          (set_projectFilePath "/project.xml" two_scenes) = Ok e'
        ∧ projectFilePath_ e' = ""
        ∧ sceneTabs_ e' = sceneTabs_ two_scenes.
Proof.
  destruct (RenderMenuBar_open_project demo_env (open_project "")
              (set_projectFilePath "/project.xml" two_scenes))
    as (e' & Hrun & Hpath & _ & Hsame & _); try reflexivity.
  exists e'. split; [exact Hrun|]. split; [exact Hpath|].
  apply Hsame. by left.
Defined.

(** ** Start and Stop *)

Lemma LoadProject_frame env path e :
  projectFilePath_ (LoadProject env path e) = projectFilePath_ e
  ∧ disk_ (LoadProject env path e) = disk_ e.
Proof.
  destruct (decide (path = "")) as [->|Hne]; [done|].
  destruct (OpenXML env path e) as [xml|] eqn:Hxml.
  2:{ rewrite LoadProject_no_root; [done|by left]. }
  destruct (GetRoot xml) as [root|] eqn:Hroot.
  2:{ rewrite LoadProject_no_root; [done|]. right. by exists xml. }
  by destruct (LoadProject_found_pool env path e xml root Hne Hxml Hroot)
    as (_ & -> & _ & -> & _).
Qed.

(** X14.  When [Start] goes through, the path of the first tab is empty, the
    other tabs are as loaded, and neither the project path nor any file has
    changed; an editor that had no project path therefore writes nothing
    when [Stop] runs next. *)
Theorem Start_then_Stop env e e' :
  Start env e = Ok e' →
  (∃ p front rest,
     sceneTabs_ (LoadProject env DefaultEditorProject e) = (p, front) :: rest
     ∧ sceneTabs_ e' = (p, ClearCachedPaths front) :: rest
     ∧ path_ (ClearCachedPaths front) = ""
     ∧ id_ (ClearCachedPaths front) = id_ front)
  ∧ projectFilePath_ e' = projectFilePath_ e
  ∧ disk_ e' = disk_ e
  ∧ (projectFilePath_ e = "" → Stop env e' = e').
Proof.
  unfold Start. intros Hrun.
  destruct (LoadProject_frame env DefaultEditorProject e) as [Hpath Hdisk].
  destruct (sceneTabs_ (LoadProject env DefaultEditorProject e))
    as [|[p front] rest] eqn:Htabs; [done|].
  injection Hrun as <-. cbn [projectFilePath_ disk_ sceneTabs_ set_sceneTabs].
  split; [by exists p, front, rest|]. split; [done|]. split; [done|].
  intros Hempty. unfold Stop. cbn [projectFilePath_ set_sceneTabs].
  by rewrite Hpath, Hempty.
Qed.

Lemma Start_then_Stop_witness :
  ∃ e', Start demo_env
          (Editor_new {[ DefaultEditorProject := project_document two_scenes ]}) = Ok e'
        ∧ Stop demo_env e' = e'.
Proof.
  destruct (Start demo_env
              (Editor_new {[ DefaultEditorProject := project_document two_scenes ]}))
    as [e'|] eqn:Hrun; [|vm_compute in Hrun; discriminate Hrun].
  exists e'. split; [reflexivity|].
  by apply (Start_then_Stop demo_env _ e' Hrun).
Defined.

(** ** Docking placement of restored tabs *)

Lemma CreateNewScene_restore_dock env b e :
  el_id b ∉ idPool_ e →
  ∃ t, CreateNewScene env (Some b) e
       = (set_sceneTabs (sceneTabs_ e ++ [(heapTop_ e, t)])
            (set_idPool ({[el_id b]} ∪ idPool_ e) (set_heapTop (S (heapTop_ e)) e)),
          Some (heapTop_ e))
       ∧ docked_after ((λ st, uniqueTitle_ st.2) <$> last (sceneTabs_ e)) [t].
Proof.
  intros Hin. unfold CreateNewScene, IDPool.TakeID, IDPool.Contains. simpl.
  destruct (last (sceneTabs_ e)) as [back|]; simpl;
    rewrite bool_decide_eq_false_2 by done;
    (eexists; split; [reflexivity|]); by destruct b.
Qed.

Lemma restore_all_docked env scenes e :
  ∃ new, sceneTabs_ (restore_all env scenes e) = sceneTabs_ e ++ new
         ∧ docked_after ((λ st, uniqueTitle_ st.2) <$> last (sceneTabs_ e))
             (map snd new).
Proof.
  revert e. induction scenes as [|b scenes IH]; intros e.
  - exists []. by rewrite app_nil_r.
  - rewrite restore_all_cons.
    destruct (decide (el_id b ∈ idPool_ e)) as [Hin|Hin].
    + rewrite CreateNewScene_conflict by done. cbn [fst].
      destruct (IH (emit (LogError_IdTaken (el_id b)) (set_heapTop (S (heapTop_ e)) e)))
        as (new & Htabs & Hdock).
      by exists new.
    + destruct (CreateNewScene_restore_dock env b e Hin) as (t & -> & Ht). cbn [fst].
      match goal with |- context [restore_all env scenes ?e0] =>
        destruct (IH e0) as (new & Htabs & Hdock) end.
      cbn [sceneTabs_ set_sceneTabs] in Htabs, Hdock.
      rewrite last_snoc in Hdock. cbn [fmap option_fmap option_map snd] in Hdock.
      exists ((heapTop_ e, t) :: new). split; [by rewrite Htabs, <- app_assoc|].
      cbn [map snd docked_after] in *. destruct Ht as [Ht _]. by split.
Qed.

(** X15.  After a load that finds the project file, the first restored tab
    is docked to the right of the "Hierarchy" panel and every later one as a
    tab of the tab restored just before it, named by that tab's unique
    title; a block skipped for its identifier does not break the chain. *)
Theorem LoadProject_docking env path e xml root :
  path ≠ "" →
  OpenXML env path e = Some xml →
  GetRoot xml = Some root →
  docked_after None (map snd (sceneTabs_ (LoadProject env path e))).
Proof.
  intros Hne Hxml Hroot.
  rewrite (LoadProject_found env path e xml root Hne Hxml Hroot).
  assert (Hdock : ∀ d e0, sceneTabs_ (LoadDock d e0) = sceneTabs_ e0) by by intros [d|] e0.
  rewrite Hdock.
  match goal with |- context [restore_all env ?scenes ?e0] =>
    destruct (restore_all_docked env scenes e0) as (new & -> & Hnew) end.
  cbn [sceneTabs_ set_sceneTabs last fmap option_fmap option_map app] in *.
  exact Hnew.
Qed.

Lemma LoadProject_docking_witness :
  let a := mkSceneEl 5 "A" "a.xml" "" in
  let b := mkSceneEl 5 "B" "b.xml" "" in
  let c := mkSceneEl 6 "C" "c.xml" "" in
  let doc := mkXMLFile (Some (mkXMLRoot "0" None (Some [a; b; c]) None)) in
  docked_after None
    (map snd (sceneTabs_ (LoadProject demo_env "/dup.xml"
                            (Editor_new {["/dup.xml" := doc]})))).
Proof.
  intros a b c doc.
  apply (LoadProject_docking demo_env "/dup.xml" _ doc
           (mkXMLRoot "0" None (Some [a; b; c]) None)); [done|reflexivity|reflexivity].
Defined.

(** ** The resource browser *)

Lemma tab_ptrs_modify_tab p f (tabs : list (ptr * SceneTab)) :
  map fst (modify_tab p f tabs) = map fst tabs.
Proof.
  unfold modify_tab. rewrite map_map. apply map_ext.
  intros [q t]. by case_bool_decide.
Qed.

(** X16.  The resource browser runs after everything else in the frame.  A
    selected scene resource adds exactly one tab, at the end of the
    registry, with the identifier the pool picks, and asks it to load the
    resource; any other selection, or none, leaves the frame as it would be
    without the browser. *)
Theorem OnUpdate_resource_browser env ui e e0 :
  OnUpdate env (without_browser ui) e = Ok e0 →
  match ResourceBrowserWindow ui with
  | Some selected =>
      if IsSceneContent env selected
      then ∃ e', OnUpdate env ui e = Ok e'
                 ∧ tab_ptrs e' = tab_ptrs e0 ++ [heapTop_ e0]
                 ∧ tab_ids e' = tab_ids e0 ++ [pick env (idPool_ e0)]
                 ∧ idPool_ e' = {[pick env (idPool_ e0)]} ∪ idPool_ e0
                 ∧ log_ e' = log_ e0 ++ [Call_LoadScene (heapTop_ e0) selected]
      else OnUpdate env ui e = Ok e0
  | None => OnUpdate env ui e = Ok e0
  end.
Proof.
  unfold OnUpdate.
  cbn [without_browser menu BeginDock_Hierarchy host BeginDock_Inspector
       ResourceBrowserWindow].
  destruct (RenderMenuBar env (menu ui) e) as [e1|]; [|done].
  cbn [mbind Result_bind].
  match goal with |- context [mbind _ ?x] => destruct x as [e2|]; [|done] end.
  cbn [mbind Result_bind].
  match goal with |- context [mbind _ ?x] => destruct x as [e4|]; [|done] end.
  cbn [mbind Result_bind].
  match goal with |- context [mbind _ ?x] => destruct x as [e5|]; [|done] end.
  cbn [mbind Result_bind].
  match goal with |- context [mbind _ ?x] => destruct x as [e6|]; [|done] end.
  cbn [mbind Result_bind]. intros [= ->].
  destruct (ResourceBrowserWindow ui) as [selected|]; [|done].
  destruct (IsSceneContent env selected); [|done].
  destruct (CreateNewScene_new env e0) as (t & -> & Hid).
  eexists. split; [reflexivity|].
  cbn [log_ idPool_ emit set_sceneTabs set_heapTop set_idPool].
  split; [|split; [|done]].
  - unfold tab_ptrs. cbn [sceneTabs_ emit set_sceneTabs set_heapTop set_idPool].
    rewrite tab_ptrs_modify_tab, map_app. done.
  - unfold tab_ids. cbn [sceneTabs_ emit set_sceneTabs set_heapTop set_idPool].
    rewrite tab_ids_modify_tab.
    + rewrite map_app. cbn [map snd]. by rewrite Hid.
    + intros t'. unfold LoadScene. by destruct (LoadScene_ok env selected).
Qed.

Lemma OnUpdate_resource_browser_witness :
  ∃ e0 e', OnUpdate demo_env (without_browser browse_frame) two_scenes = Ok e0
           ∧ OnUpdate demo_env browse_frame two_scenes = Ok e'
           ∧ tab_ptrs e' = tab_ptrs e0 ++ [heapTop_ e0]
           ∧ log_ e' = log_ e0 ++ [Call_LoadScene (heapTop_ e0) "Scenes/Demo.xml"].
Proof.
  destruct (OnUpdate demo_env (without_browser browse_frame) two_scenes) as [e0|] eqn:H0;
    [|vm_compute in H0; discriminate H0].
  pose proof (OnUpdate_resource_browser demo_env browse_frame two_scenes e0 H0) as H.
  cbn [ResourceBrowserWindow browse_frame IsSceneContent demo_env] in H.
  destruct H as (e' & Hrun & Hptrs & _ & _ & Hlog).
  exists e0, e'. split; [reflexivity|]. split; [exact Hrun|]. split; [exact Hptrs|exact Hlog].
Defined.

(** ** Frames never go through a dead handle *)

(** X1.  Whatever the UI reports and whatever state the editor is in, the
    menu bar and the whole frame run to the end: every use of [activeTab_]
    in them is behind an [Expired()] test, [sceneTabs_.Back()] behind a size
    test, and the tab a new scene is loaded into is never null. *)
Theorem frame_never_faults env ui e :
  (∃ e', RenderMenuBar env (menu ui) e = Ok e')
  ∧ (∃ e', OnUpdate env ui e = Ok e').
Proof.
  split; [apply RenderMenuBar_no_fault|apply OnUpdate_no_fault].
Qed.
